(** * Claims explorer dashboard (app.py): a shallow embedding

    The dashboard is one Streamlit script, re-run from top to bottom on
    every interaction.  A run is a computation in a small monad [M] that
    threads the memoised warehouse connection, appends to a log of what the
    script did (statements executed, widgets, notices, tables and charts
    drawn, in order) and can end early in two ways: [st.stop()] and an
    uncaught exception.  The script has no [try]: an exception ends the run.

    Outside the script, and so inputs of the model:
    - the warehouse: [sql.connect] and what a statement returns
      (record [Warehouse]);
    - the values the rendering host keeps per widget key (record [ui]).

    Modelling choices:
    - strings are byte strings and [PyStr.lower] moves the ASCII capitals
      only.  That is [str.lower] on ASCII strings and on no others, so every
      statement about case is made for ASCII strings ([ascii_only]);
    - one [Warehouse] value is how the remote side answers during one pass;
      two passes over the same tables may face two such values;
    - a DataFrame is its column labels and its rows; labels may repeat, and
      selecting by a repeated label behaves as in pandas (a frame, not a
      series);
    - layout containers ([with col:]) draw nothing and are not logged;
      [st.columns(n)] is;
    - a metric carries the number it shows, not the formatted text;
    - the meaning of the KPI aggregates is given over the rows of a table
      ([denial_rate], [kpi_answer]), with exact rationals for quotients. *)

From Stdlib Require Import List String Ascii Bool Arith ZArith QArith Lia.
From Stdlib Require Import NArith Sorting.Sorted Sorting.Permutation.
Import ListNotations.
Local Close Scope Q_scope.
Local Close Scope Z_scope.
Local Open Scope nat_scope.
Local Open Scope list_scope.
Local Open Scope string_scope.

Set Implicit Arguments.

(* ------------------------------------------------------------------------- *)
(** ** Python strings: [lower] and the [in] operator *)

Module PyStr.

(** [str.lower] on one ASCII character: 'A'..'Z' move to 'a'..'z'.
    Python also lowers letters outside ASCII, and not always one character
    at a time; [lower] below agrees with [str.lower] on strings whose
    characters are all below 128 and is not meant for others. *)
Definition lower_ascii (c : ascii) : ascii :=
  let n := N_of_ascii c in
  if (65 <=? n)%N && (n <=? 90)%N then ascii_of_N (n + 32) else c.

Fixpoint lower (s : string) : string :=
  match s with
  | EmptyString => EmptyString
  | String c s' => String (lower_ascii c) (lower s')
  end.

(** [sub in s] for two strings: [sub] starts at some position of [s]. *)
Fixpoint str_in (sub s : string) : bool :=
  String.prefix sub s ||
  match s with
  | EmptyString => false
  | String _ s' => str_in sub s'
  end.

(** What [in] means: [s] is [pre ++ sub ++ post]. *)
Definition Substring (sub s : string) : Prop :=
  exists pre post, s = pre ++ sub ++ post.

(** Python truthiness of a string. *)
Definition truthy (s : string) : bool :=
  match s with EmptyString => false | _ => true end.

End PyStr.

(* ------------------------------------------------------------------------- *)
(** ** Exceptions and results *)

Inductive exn : Type :=
| ConnectionError
| QueryExecutionError
| IndexError
| KeyError
| AttributeError
| TypeError
| ValueError.

Inductive result (A : Type) : Type :=
| Ok (a : A)
| Raise (e : exn).
Arguments Ok {A} a.
Arguments Raise {A} e.

Definition rbind {A B} (r : result A) (k : A -> result B) : result B :=
  match r with
  | Ok a => k a
  | Raise e => Raise e
  end.

(* ------------------------------------------------------------------------- *)
(** ** Tabular results (pandas DataFrame) *)

(** One cell.  [SNull] is [None], the missing value of a column of names,
    which [dropna] removes.  NaN, the missing value of a numeric column, has
    no cell of its own: it is removed by [dropna] like [None] but converts
    and formats differently, and no statement below is about it. *)
Inductive scalar : Type :=
| SNull
| SStr (s : string)
| SInt (z : Z)
| SNum (q : Q).

Definition is_null (v : scalar) : bool :=
  match v with SNull => true | _ => false end.

(** Ordered column labels and ordered rows; cell [i] of a row belongs to
    column [i]. *)
Record DataFrame : Type := mkFrame {
  columns : list string;
  rows : list (list scalar)
}.

(** [pd.DataFrame()] *)
Definition empty_frame : DataFrame := mkFrame [] [].

(** [df.empty]: some axis has length 0. *)
Definition empty (df : DataFrame) : bool :=
  match columns df, rows df with
  | [], _ => true
  | _, [] => true
  | _, _ => false
  end.

(** Positions of the columns labelled [name]. *)
Fixpoint positions_from (i : nat) (name : string) (cols : list string) : list nat :=
  match cols with
  | [] => []
  | c :: cols' =>
      if String.eqb c name then i :: positions_from (S i) name cols'
      else positions_from (S i) name cols'
  end.

Definition positions (name : string) (cols : list string) : list nat :=
  positions_from 0 name cols.

(** The cells of the column at position [i], top to bottom. *)
Definition column_at (df : DataFrame) (i : nat) : list scalar :=
  map (fun r => nth i r SNull) (rows df).

(** [name in df.columns] *)
Definition has_column (df : DataFrame) (name : string) : bool :=
  existsb (String.eqb name) (columns df).

(** [df.columns[i]] *)
Definition columns_getitem (df : DataFrame) (i : nat) : result string :=
  match nth_error (columns df) i with
  | Some c => Ok c
  | None => Raise IndexError
  end.

(** [Series.dropna()] *)
Definition dropna (l : list scalar) : list scalar :=
  filter (fun v => negb (is_null v)) l.

(** [df[name].dropna().tolist()].  A label that no column carries is a
    [KeyError]; a label carried by several columns selects a DataFrame,
    which has no [tolist]. *)
Definition getitem_dropna_tolist (df : DataFrame) (name : string)
  : result (list scalar) :=
  match positions name (columns df) with
  | [] => Raise KeyError
  | [i] => Ok (dropna (column_at df i))
  | _ :: _ :: _ => Raise AttributeError
  end.

(** [df[name][0]]: row label 0 of the one column labelled [name]. *)
Definition getitem_cell0 (df : DataFrame) (name : string) : result scalar :=
  match positions name (columns df) with
  | [i] =>
      match rows df with
      | r :: _ => Ok (nth i r SNull)
      | [] => Raise KeyError
      end
  | _ => Raise KeyError
  end.

(* ------------------------------------------------------------------------- *)
(** ** The filter of a selector stage *)

(** [c.lower()] for a cell: only a string has the method. *)
Definition cell_lower (c : scalar) : result (string * string) :=
  match c with
  | SStr s => Ok (s, PyStr.lower s)
  | _ => Raise AttributeError
  end.

(** [[c for c in candidates if flt.lower() in c.lower()]] *)
Fixpoint filtered (flt : string) (candidates : list scalar)
  : result (list string) :=
  match candidates with
  | [] => Ok []
  | c :: rest =>
      rbind (cell_lower c) (fun '(s, low) =>
      rbind (filtered flt rest) (fun kept =>
      Ok (if PyStr.str_in (PyStr.lower flt) low then s :: kept else kept)))
  end.

(** [filtered.index(x) if x in filtered else 0]: the position of the first
    occurrence, 0 when there is none. *)
Fixpoint index_of (x : string) (l : list string) : option nat :=
  match l with
  | [] => None
  | y :: l' =>
      if String.eqb y x then Some 0
      else option_map S (index_of x l')
  end.

Definition default_idx (filtered_tables : list string) : nat :=
  match index_of "claims_enriched" filtered_tables with
  | Some i => i
  | None => 0
  end.

(* ------------------------------------------------------------------------- *)
(** ** Frames handed to the charts *)

Fixpoint remove_nth {A} (i : nat) (l : list A) : list A :=
  match l, i with
  | [], _ => []
  | _ :: l', O => l'
  | x :: l', S i' => x :: remove_nth i' l'
  end.

(** A frame whose row labels are one of its former columns. *)
Record IndexedFrame : Type := mkIndexed {
  index : list scalar;
  body : DataFrame
}.

(** [df.set_index(name)]: the column leaves the frame and labels the rows.
    Several columns with that label cannot make a one-dimensional index. *)
Definition set_index (df : DataFrame) (name : string) : result IndexedFrame :=
  match positions name (columns df) with
  | [] => Raise KeyError
  | [i] =>
      Ok (mkIndexed (column_at df i)
            (mkFrame (remove_nth i (columns df)) (map (remove_nth i) (rows df))))
  | _ :: _ :: _ => Raise ValueError
  end.

(** Positions selected by a list of labels, in the order asked for. *)
Fixpoint select_positions (names : list string) (cols : list string)
  : result (list nat) :=
  match names with
  | [] => Ok []
  | n :: names' =>
      match positions n cols with
      | [] => Raise KeyError
      | ps => rbind (select_positions names' cols) (fun rest => Ok (ps ++ rest)%list)
      end
  end.

(** [frame[[name1, ...]]] (and [frame[name]], whose cells are the same). *)
Definition select (f : IndexedFrame) (names : list string) : result IndexedFrame :=
  rbind (select_positions names (columns (body f))) (fun ps =>
  Ok (mkIndexed (index f)
        (mkFrame (map (fun p => nth p (columns (body f)) "") ps)
                 (map (fun r => map (fun p => nth p r SNull) ps) (rows (body f)))))).

(* ------------------------------------------------------------------------- *)
(** ** The numbers shown by the KPI row

    The text a number is formatted to is not modelled: a metric carries the
    number.  The columns read here are SQL counts, sums and a quotient; the
    conversions are exact on integer and numeric cells and on [None].  A
    string cell is outside what they model: [int] and [float] parse a string
    that spells a number, which the [SStr] branches do not do, and only the
    format [:,.2f] refuses every string. *)

Definition Qtrunc (q : Q) : Z := Z.quot (Qnum q) (Zpos (Qden q)).

(** [int(v)] for an integer, a number (truncated towards zero) and [None]. *)
Definition py_int (v : scalar) : result Z :=
  match v with
  | SInt z => Ok z
  | SNum q => Ok (Qtrunc q)
  | SNull => Raise TypeError
  | SStr _ => Raise ValueError
  end.

(** [float(v)] for an integer, a number and [None]; also the number behind
    the format [:,.2f]. *)
Definition py_float (v : scalar) : result Q :=
  match v with
  | SInt z => Ok (inject_Z z)
  | SNum q => Ok q
  | SNull => Raise TypeError
  | SStr _ => Raise ValueError
  end.

Inductive metric_value : Type :=
| Count (n : Z)          (* [int(...)] *)
| Dollars (amount : Q)   (* [f"${...:,.2f}"] *)
| Percent (p : Q).       (* [f"{...*100:.1f}%"], [p] already times 100 *)

(* ------------------------------------------------------------------------- *)
(** ** What a run does: the log *)

Inductive event : Type :=
| Connect (server_hostname http_path : string)
| Execute (query : string)
| PageConfig
| Title (text : string)
| Columns (n : nat)
| TextInput (label key : string)
| Selectbox (label : string) (options : list string) (idx : nat) (key : string)
| ErrorBox (text : string)
| WarningBox (text : string)
| InfoBox (text : string)
| Subheader (text : string)
| Markdown (text : string)
| Dataframe (df : DataFrame)
| Metric (label : string) (value : metric_value)
| BarChart (df : DataFrame) (x y : string)
| BarChartIndexed (data : IndexedFrame)
| LineChart (data : IndexedFrame).

(* ------------------------------------------------------------------------- *)
(** ** The warehouse and the widget state *)

(** [Config()]: what the process configuration resolves to. *)
Record Config : Type := mkConfig {
  host : string;
  warehouse_id : string
}.

Record Connection : Type := mkConnection {
  server_hostname : string;
  http_path : string
}.

(** The remote side during one pass.  [sql_connect] is [sql.connect];
    [execute] is [cursor.execute(q)] followed by
    [fetchall_arrow().to_pandas()], whose outcome is an exception, nothing,
    or a frame.  A pass sends no statement text twice
    ([pass_statements_distinct]), so answering by the text loses nothing
    within a pass.  Across passes nothing is fixed: the same tables can be
    served by two values of this record, for instance with the rows of a
    statement without ORDER BY in another order ([preview_of]). *)
Record Warehouse : Type := mkWarehouse {
  cfg : Config;
  sql_connect : string -> string -> result Connection;
  execute : Connection -> string -> result (option DataFrame)
}.

(** The values the rendering host keeps per widget key. *)
Record ui : Type := mkUi {
  text_of : string -> string;          (* text typed into [st.text_input] *)
  choice_of : string -> option string  (* option picked in [st.selectbox] *)
}.

(* ------------------------------------------------------------------------- *)
(** ** The monad of a run *)

Record state : Type := mkState {
  connection : option Connection;   (* [st.cache_resource] of [get_connection] *)
  log : list event
}.

Inductive outcome (A : Type) : Type :=
| Done (a : A)
| Stopped          (* [st.stop()] *)
| Raised (e : exn) (* uncaught exception *).
Arguments Done {A} a.
Arguments Stopped {A}.
Arguments Raised {A} e.

Definition M (A : Type) : Type := state -> outcome A * state.

Definition ret {A} (a : A) : M A := fun s => (Done a, s).

Definition bind {A B} (m : M A) (k : A -> M B) : M B :=
  fun s =>
    match m s with
    | (Done a, s') => k a s'
    | (Stopped, s') => (Stopped, s')
    | (Raised e, s') => (Raised e, s')
    end.

Declare Scope run_scope.
Delimit Scope run_scope with run.
Notation "x <- m ;; k" := (bind m (fun x => k))
  (at level 61, m at next level, right associativity) : run_scope.
Notation "m ;;; k" := (bind m (fun _ => k))
  (at level 61, right associativity) : run_scope.
Local Open Scope run_scope.

Definition emit (e : event) : M unit :=
  fun s => (Done tt, mkState (connection s) (log s ++ [e])%list).

Definition st_stop {A} : M A := fun s => (Stopped, s).

Definition lift {A} (r : result A) : M A :=
  fun s =>
    match r with
    | Ok a => (Done a, s)
    | Raise e => (Raised e, s)
    end.

(* ------------------------------------------------------------------------- *)
(** ** Query executor *)

(** [get_connection], memoised by [st.cache_resource]: the first successful
    call connects and is remembered; a failed call is not. *)
Definition get_connection (W : Warehouse) : M Connection :=
  fun s =>
    match connection s with
    | Some conn => (Done conn, s)
    | None =>
        let hostname := host (cfg W) in
        let path := "/sql/1.0/warehouses/" ++ warehouse_id (cfg W) in
        let log' := (log s ++ [Connect hostname path])%list in
        match sql_connect W hostname path with
        | Ok conn => (Done conn, mkState (Some conn) log')
        | Raise e => (Raised e, mkState None log')
        end
    end.

(** [result if result is not None else pd.DataFrame()] *)
Definition or_empty (result : option DataFrame) : DataFrame :=
  match result with
  | Some df => df
  | None => empty_frame
  end.

(** [run_query] *)
Definition run_query (W : Warehouse) (query : string) : M DataFrame :=
  conn <- get_connection W ;;
  emit (Execute query) ;;;
  result <- lift (execute W conn query) ;;
  ret (or_empty result).

(* ------------------------------------------------------------------------- *)
(** ** Widgets *)

(** [st.text_input(label, key=key)] *)
Definition st_text_input (u : ui) (label key : string) : M string :=
  emit (TextInput label key) ;;;
  ret (text_of u key).

(** [st.selectbox(label, options, index=idx, key=key)]: the option kept
    under [key] while it is still offered, else the option at [idx]; [None]
    when nothing is offered. *)
Definition st_selectbox (u : ui) (label : string) (options : list string)
    (idx : nat) (key : string) : M (option string) :=
  emit (Selectbox label options idx key) ;;;
  ret (match choice_of u key with
       | Some v =>
           if existsb (String.eqb v) options then Some v
           else nth_error options idx
       | None => nth_error options idx
       end).

(** [if cond: notice; st.stop()] *)
Definition halt_when (cond : bool) (notice : event) : M unit :=
  if cond then emit notice ;;; st_stop else ret tt.

Definition is_nil {A} (l : list A) : bool :=
  match l with [] => true | _ => false end.

(* ------------------------------------------------------------------------- *)
(** ** 1. The selectors row *)

(** Catalog stage (app.py lines 76-88). *)
Definition catalog_stage (W : Warehouse) (u : ui) : M (option string) :=
  catalogs_df <- run_query W "SHOW CATALOGS" ;;
  halt_when (empty catalogs_df)
    (ErrorBox "No catalogs available; check permissions.") ;;;
  catalog_col <- lift (columns_getitem catalogs_df 0) ;;
  catalog_list <- lift (getitem_dropna_tolist catalogs_df catalog_col) ;;
  catalog_filter <- st_text_input u "🔎 Catalog filter" "catalog_filter" ;;
  filtered_catalogs <- lift (filtered catalog_filter catalog_list) ;;
  halt_when (is_nil filtered_catalogs) (WarningBox "No catalogs match.") ;;;
  st_selectbox u "Catalog" filtered_catalogs 0 "catalog_select".

(** Schema stage (app.py lines 91-105); skipped without a catalog. *)
Definition schema_stage (W : Warehouse) (u : ui)
    (selected_catalog : option string) : M (option string) :=
  match selected_catalog with
  | Some catalog =>
      if PyStr.truthy catalog then
        schemas_df <- run_query W ("SHOW SCHEMAS IN " ++ catalog) ;;
        halt_when (empty schemas_df) (ErrorBox "No schemas found.") ;;;
        schema_col <- lift (columns_getitem schemas_df 0) ;;
        schema_list <- lift (getitem_dropna_tolist schemas_df schema_col) ;;
        schema_filter <- st_text_input u "🔎 Schema filter" "schema_filter" ;;
        filtered_schemas <- lift (filtered schema_filter schema_list) ;;
        halt_when (is_nil filtered_schemas) (WarningBox "No schemas match.") ;;;
        st_selectbox u "Schema" filtered_schemas 0 "schema_select"
      else ret None
  | None => ret None
  end.

(** [tcol = "tableName" if "tableName" in tables_df.columns
           else tables_df.columns[1]] *)
Definition tcol (tables_df : DataFrame) : result string :=
  if has_column tables_df "tableName" then Ok "tableName"
  else columns_getitem tables_df 1.

(** Table stage (app.py lines 108-123); skipped without catalog and schema. *)
Definition table_stage (W : Warehouse) (u : ui)
    (selected_catalog selected_schema : option string) : M (option string) :=
  match selected_catalog, selected_schema with
  | Some catalog, Some schema =>
      if PyStr.truthy catalog && PyStr.truthy schema then
        tables_df <- run_query W ("SHOW TABLES IN " ++ catalog ++ "." ++ schema) ;;
        halt_when (empty tables_df) (WarningBox "No tables in this schema.") ;;;
        col <- lift (tcol tables_df) ;;
        table_list <- lift (getitem_dropna_tolist tables_df col) ;;
        table_filter <- st_text_input u "🔎 Table filter" "table_filter" ;;
        filtered_tables <- lift (filtered table_filter table_list) ;;
        halt_when (is_nil filtered_tables) (WarningBox "No tables match.") ;;;
        st_selectbox u "Table" filtered_tables (default_idx filtered_tables)
          "table_select"
      else ret None
  | _, _ => ret None
  end.

(* ------------------------------------------------------------------------- *)
(** ** 2. Data preview and payor analytics: the SQL texts *)

(** The row preview query (app.py line 132). *)
Definition preview_q (table_fqn : string) : string :=
  "SELECT * FROM "
  ++ table_fqn
  ++ " LIMIT 100".

(** The KPI aggregate query (app.py line 139). *)
Definition kpi_query (table_fqn : string) : string :=
  "
        SELECT 
            COUNT(*) AS total_claims,
            SUM(COALESCE(total_charge, 0)) AS total_charges,
            COUNT(DISTINCT member_id) AS distinct_members,
            COUNT(DISTINCT provider_id) AS distinct_providers,
            SUM(CASE WHEN claim_status = 'denied' THEN 1 ELSE 0 END)/COUNT(*) AS denial_rate
        FROM "
  ++ table_fqn
  ++ "
    ".

(** The status breakdown query (app.py line 158). *)
Definition status_q (table_fqn : string) : string :=
  "SELECT claim_status, COUNT(*) as n_claims FROM "
  ++ table_fqn
  ++ " GROUP BY claim_status".

(** The monthly trend query (app.py line 166). *)
Definition monthly_trend_q (table_fqn : string) : string :=
  "
        SELECT substr(claim_date,1,7) as month, SUM(total_charge) as charges,
               SUM(CASE WHEN claim_status='denied' THEN total_charge ELSE 0 END) as denied_amt
        FROM "
  ++ table_fqn
  ++ " GROUP BY month ORDER BY month
    ".

(** The top denial reasons query (app.py line 182). *)
Definition denial_reason_q (table_fqn : string) : string :=
  "
        SELECT diagnosis_desc, COUNT(*) as denied_claims
        FROM "
  ++ table_fqn
  ++ "
        WHERE claim_status='denied'
        GROUP BY diagnosis_desc
        ORDER BY denied_claims DESC LIMIT 10
    ".

(** The denial rate by provider query (app.py line 198). *)
Definition denial_by_provider_q (table_fqn : string) : string :=
  "
        SELECT provider_name,
               SUM(CASE WHEN claim_status='denied' THEN 1 ELSE 0 END)/COUNT(*) as denial_rate,
               COUNT(*) as total
        FROM "
  ++ table_fqn
  ++ "
        GROUP BY provider_name HAVING total >= 3
        ORDER BY denial_rate DESC LIMIT 10
    ".

(** The top diagnoses by cost query (app.py line 216). *)
Definition diag_q (table_fqn : string) : string :=
  "
        SELECT diagnosis_desc, COUNT(*) as n_claims, SUM(total_charge) as charges
        FROM "
  ++ table_fqn
  ++ "
        GROUP BY diagnosis_desc ORDER BY charges DESC LIMIT 10
    ".

(** The top providers by total charge query (app.py line 229). *)
Definition prov_q (table_fqn : string) : string :=
  "
        SELECT provider_name, SUM(total_charge) as charges, COUNT(*) as n_claims
        FROM "
  ++ table_fqn
  ++ "
        GROUP BY provider_name ORDER BY charges DESC LIMIT 10
    ".

(** The outlier claims query (app.py line 244). *)
Definition outlier_q (table_fqn : string) : string :=
  "
        SELECT *
        FROM "
  ++ table_fqn
  ++ "
        WHERE total_charge > (
            SELECT AVG(total_charge) + 3*STDDEV(total_charge) FROM "
  ++ table_fqn
  ++ "
        )
        ORDER BY total_charge DESC LIMIT 10
    ".

(* ------------------------------------------------------------------------- *)
(** ** 2. Data preview and payor analytics: the panels *)

(** Row preview (lines 132-136). *)
Definition preview_panel (W : Warehouse) (table_fqn : string) : M unit :=
  preview_df <- run_query W (preview_q table_fqn) ;;
  if negb (empty preview_df) then emit (Dataframe preview_df)
  else emit (InfoBox "No data found.").

(** KPI metrics row (lines 139-154): no test of [kpi.empty] here. *)
Definition kpi_panel (W : Warehouse) (table_fqn : string) : M unit :=
  kpi <- run_query W (kpi_query table_fqn) ;;
  emit (Columns 5) ;;;
  total_claims <- lift (rbind (getitem_cell0 kpi "total_claims") py_int) ;;
  emit (Metric "Total Claims" (Count total_claims)) ;;;
  total_charges <- lift (rbind (getitem_cell0 kpi "total_charges") py_float) ;;
  emit (Metric "Total Charges" (Dollars total_charges)) ;;;
  distinct_members <- lift (rbind (getitem_cell0 kpi "distinct_members") py_int) ;;
  emit (Metric "Unique Members" (Count distinct_members)) ;;;
  distinct_providers <- lift (rbind (getitem_cell0 kpi "distinct_providers") py_int) ;;
  emit (Metric "Unique Providers" (Count distinct_providers)) ;;;
  denial_rate <- lift (rbind (getitem_cell0 kpi "denial_rate") py_float) ;;
  emit (Metric "Denial Rate" (Percent (denial_rate * 100)%Q)).

(** Claims by status (lines 157-164). *)
Definition status_panel (W : Warehouse) (table_fqn : string) : M unit :=
  emit (Columns 2) ;;;
  status_df <- run_query W (status_q table_fqn) ;;
  emit (Markdown "#### Claims by Status") ;;;
  if negb (empty status_df) then emit (BarChart status_df "claim_status" "n_claims")
  else emit (InfoBox "No claims status data.").

(** Monthly charges and denials (lines 166-177). *)
Definition trend_panel (W : Warehouse) (table_fqn : string) : M unit :=
  trend_df <- run_query W (monthly_trend_q table_fqn) ;;
  emit (Markdown "#### Monthly Charges & Denials") ;;;
  if negb (empty trend_df) then
    data <- lift (rbind (set_index trend_df "month")
                    (fun f => select f ["charges"; "denied_amt"])) ;;
    emit (LineChart data)
  else emit (InfoBox "No trend data.").

(** Top denial reasons (lines 180-195). *)
Definition denial_reason_panel (W : Warehouse) (table_fqn : string) : M unit :=
  emit (Columns 2) ;;;
  denial_reason_df <- run_query W (denial_reason_q table_fqn) ;;
  emit (Markdown "#### Top Denial Reasons (Diagnosis)") ;;;
  if negb (empty denial_reason_df) then
    emit (BarChart denial_reason_df "diagnosis_desc" "denied_claims")
  else emit (InfoBox "No denials by reason.").

(** Providers with highest denial rate (lines 197-212). *)
Definition denial_by_provider_panel (W : Warehouse) (table_fqn : string) : M unit :=
  denial_by_provider <- run_query W (denial_by_provider_q table_fqn) ;;
  emit (Markdown "#### Providers with Highest Denial Rate") ;;;
  if negb (empty denial_by_provider) then
    data <- lift (rbind (set_index denial_by_provider "provider_name")
                    (fun f => select f ["denial_rate"])) ;;
    emit (BarChartIndexed data)
  else emit (InfoBox "No denial/provider data.").

(** Top diagnoses by cost (lines 215-227). *)
Definition diag_panel (W : Warehouse) (table_fqn : string) : M unit :=
  emit (Columns 2) ;;;
  diag_df <- run_query W (diag_q table_fqn) ;;
  emit (Markdown "#### Top Diagnoses by Cost") ;;;
  if negb (empty diag_df) then emit (BarChart diag_df "diagnosis_desc" "charges")
  else emit (InfoBox "No diagnoses data.").

(** Top providers by total charge (lines 229-240). *)
Definition prov_panel (W : Warehouse) (table_fqn : string) : M unit :=
  prov_df <- run_query W (prov_q table_fqn) ;;
  emit (Markdown "#### Top Providers by Total Charge") ;;;
  if negb (empty prov_df) then emit (Dataframe prov_df)
  else emit (InfoBox "No provider data.").

(** Outlier high-charge claims (lines 243-256). *)
Definition outlier_panel (W : Warehouse) (table_fqn : string) : M unit :=
  emit (Markdown "#### Outlier High-Charge Claims") ;;;
  outliers_df <- run_query W (outlier_q table_fqn) ;;
  if negb (empty outliers_df) then emit (Dataframe outliers_df)
  else emit (InfoBox "No outlier claims found.").

(** The block under [if selected_catalog and selected_schema and
    selected_table] (lines 128-256). *)
Definition analytics (W : Warehouse) (table_fqn : string) : M unit :=
  emit (Subheader ("📊 Data from `" ++ table_fqn ++ "`")) ;;;
  preview_panel W table_fqn ;;;
  kpi_panel W table_fqn ;;;
  status_panel W table_fqn ;;;
  trend_panel W table_fqn ;;;
  denial_reason_panel W table_fqn ;;;
  denial_by_provider_panel W table_fqn ;;;
  diag_panel W table_fqn ;;;
  prov_panel W table_fqn ;;;
  outlier_panel W table_fqn.

(** One run of the script, top to bottom. *)
Definition script (W : Warehouse) (u : ui) : M unit :=
  emit PageConfig ;;;
  emit (Title "💳 Claims Enriched Table Explorer (Horizontal Filters + Analytics)") ;;;
  emit (Columns 3) ;;;
  selected_catalog <- catalog_stage W u ;;
  selected_schema <- schema_stage W u selected_catalog ;;
  selected_table <- table_stage W u selected_catalog selected_schema ;;
  match selected_catalog, selected_schema, selected_table with
  | Some catalog, Some schema, Some table =>
      if PyStr.truthy catalog && PyStr.truthy schema && PyStr.truthy table then
        analytics W (catalog ++ "." ++ schema ++ "." ++ table)
      else ret tt
  | _, _, _ => ret tt
  end.

(** A render pass starts with an empty page and whatever connection the
    process already holds. *)
Definition render_pass (W : Warehouse) (u : ui) (cached : option Connection)
  : outcome unit * state :=
  script W u (mkState cached []).

(* ------------------------------------------------------------------------- *)
(** ** What the warehouse computes for the KPI query

    The aggregates are evaluated by the SQL engine, not by the script; the
    functions below give the meaning of the expressions written in
    [kpi_query] over the rows of the selected table.  The quotient of two
    counts is an exact rational.  For a zero count the model follows the
    specification of the executor (sections 4.3 and 7): the engine fails
    with a divide-by-zero error, raised as [QueryExecutionError]. *)

Record claim : Type := mkClaim {
  claim_date : option string;
  total_charge : option Q;
  member_id : option string;
  provider_id : option string;
  claim_status : option string
}.

(** [claim_status = 'denied'] (unknown on NULL, so not taken by [CASE WHEN]). *)
Definition is_denied (c : claim) : bool :=
  match claim_status c with
  | Some s => String.eqb s "denied"
  | None => false
  end.

(** [COUNT( * )] *)
Definition count_star (t : list claim) : nat := List.length t.

(** [SUM(CASE WHEN claim_status = 'denied' THEN 1 ELSE 0 END)] over a table
    that has rows. *)
Definition denied_count (t : list claim) : nat :=
  List.length (filter is_denied t).

(** [SUM(CASE ...)/COUNT( * ) AS denial_rate] *)
Definition denial_rate (t : list claim) : result Q :=
  match count_star t with
  | O => Raise QueryExecutionError
  | S _ => Ok (Z.of_nat (denied_count t) # Pos.of_nat (count_star t))%Q
  end.

(** [SUM(COALESCE(total_charge, 0))] over a table that has rows. *)
Definition total_charges (t : list claim) : Q :=
  fold_right (fun c acc =>
    (match total_charge c with Some q => q | None => 0 end + acc)%Q) 0%Q t.

Fixpoint distinct (l : list string) : list string :=
  match l with
  | [] => []
  | x :: l' => if existsb (String.eqb x) l' then distinct l' else x :: distinct l'
  end.

Fixpoint non_null {A} (l : list (option A)) : list A :=
  match l with
  | [] => []
  | Some a :: l' => a :: non_null l'
  | None :: l' => non_null l'
  end.

(** [COUNT(DISTINCT col)] *)
Definition count_distinct (col : claim -> option string) (t : list claim) : nat :=
  List.length (distinct (non_null (map col t))).

(** The one-row answer to [kpi_query]. *)
Definition kpi_answer (t : list claim) : result (option DataFrame) :=
  rbind (denial_rate t) (fun rate =>
  Ok (Some (mkFrame
    ["total_claims"; "total_charges"; "distinct_members"; "distinct_providers";
     "denial_rate"]
    [[SInt (Z.of_nat (count_star t));
      SNum (total_charges t);
      SInt (Z.of_nat (count_distinct member_id t));
      SInt (Z.of_nat (count_distinct provider_id t));
      SNum rate]]))).

(* ------------------------------------------------------------------------- *)
(** ** Concrete warehouses and widget states, for examples *)

(** A warehouse that answers the listed statements and rejects any other. *)
Fixpoint answer_of (answers : list (string * result (option DataFrame)))
    (query : string) : result (option DataFrame) :=
  match answers with
  | [] => Raise QueryExecutionError
  | (q, r) :: answers' => if String.eqb q query then r else answer_of answers' query
  end.

Definition demo_cfg : Config := mkConfig "dbc.example.net" "wh1".

Definition warehouse_of (answers : list (string * result (option DataFrame)))
  : Warehouse :=
  mkWarehouse demo_cfg
    (fun hostname path => Ok (mkConnection hostname path))
    (fun _ query => answer_of answers query).

(** Nothing typed, nothing picked. *)
Definition fresh_ui : ui := mkUi (fun _ => "") (fun _ => None).

Definition demo_fqn : string := "main.payer.claims_enriched".

Definition demo_claims : list claim :=
  [ mkClaim (Some "2023-01-15") (Some (60 # 1)%Q) (Some "m1") (Some "p1") (Some "paid");
    mkClaim (Some "2023-01-20") (Some (40 # 1)%Q) (Some "m2") (Some "p1") (Some "denied");
    mkClaim (Some "2023-02-03") (Some (50 # 1)%Q) (Some "m1") (Some "p2") (Some "paid") ].

Definition claims_frame_columns : list string :=
  ["claim_date"; "total_charge"; "member_id"; "provider_id"; "claim_status"].

Definition selector_answers : list (string * result (option DataFrame)) :=
  [ ("SHOW CATALOGS", Ok (Some (mkFrame ["catalog"] [[SStr "main"]; [SStr "samples"]])));
    ("SHOW SCHEMAS IN main", Ok (Some (mkFrame ["databaseName"] [[SStr "payer"]])));
    ("SHOW TABLES IN main.payer",
     Ok (Some (mkFrame ["database"; "tableName"; "isTemporary"]
                 [[SStr "payer"; SStr "claims_raw"; SStr "false"];
                  [SStr "payer"; SStr "claims_enriched"; SStr "false"]]))) ].

(** The scenario-5 answer to the monthly trend query. *)
Definition trend_rows : DataFrame :=
  mkFrame ["month"; "charges"; "denied_amt"]
    [[SStr "2023-01"; SNum (100 # 1)%Q; SNum (10 # 1)%Q];
     [SStr "2023-02"; SNum (50 # 1)%Q; SNum 0%Q]].

(** A populated table: every panel has data. *)
Definition populated : Warehouse :=
  warehouse_of (selector_answers ++
    [ (preview_q demo_fqn,
       Ok (Some (mkFrame claims_frame_columns
                   [[SStr "2023-01-15"; SNum (60 # 1)%Q; SStr "m1"; SStr "p1"; SStr "paid"]])));
      (kpi_query demo_fqn, kpi_answer demo_claims);
      (status_q demo_fqn,
       Ok (Some (mkFrame ["claim_status"; "n_claims"]
                   [[SStr "paid"; SInt 2%Z]; [SStr "denied"; SInt 1%Z]])));
      (monthly_trend_q demo_fqn, Ok (Some trend_rows));
      (denial_reason_q demo_fqn, Ok (Some (mkFrame ["diagnosis_desc"; "denied_claims"] [])));
      (denial_by_provider_q demo_fqn,
       Ok (Some (mkFrame ["provider_name"; "denial_rate"; "total"] [])));
      (diag_q demo_fqn, Ok (Some (mkFrame ["diagnosis_desc"; "n_claims"; "charges"] [])));
      (prov_q demo_fqn, Ok (Some (mkFrame ["provider_name"; "charges"; "n_claims"] [])));
      (outlier_q demo_fqn, Ok (Some (mkFrame claims_frame_columns []))) ])%list.

(** The selected table has no rows: the preview is empty and the KPI
    quotient divides by a zero count. *)
Definition zero_rows : Warehouse :=
  warehouse_of (selector_answers ++
    [ (preview_q demo_fqn, Ok (Some (mkFrame claims_frame_columns [])));
      (kpi_query demo_fqn, kpi_answer []);
      (status_q demo_fqn, Ok (Some (mkFrame ["claim_status"; "n_claims"] []))) ])%list.

(** The KPI query comes back with no rows at all. *)
Definition kpi_without_rows : Warehouse :=
  warehouse_of (selector_answers ++
    [ (preview_q demo_fqn, Ok (Some (mkFrame claims_frame_columns [])));
      (kpi_query demo_fqn,
       Ok (Some (mkFrame ["total_claims"; "total_charges"; "distinct_members";
                          "distinct_providers"; "denial_rate"] [])));
      (status_q demo_fqn, Ok (Some (mkFrame ["claim_status"; "n_claims"] []))) ])%list.

(** A valid catalog whose schema listing is empty. *)
Definition no_schemas : Warehouse :=
  warehouse_of
    [ ("SHOW CATALOGS", Ok (Some (mkFrame ["catalog"] [[SStr "main"]])));
      ("SHOW SCHEMAS IN main", Ok (Some (mkFrame ["databaseName"] [])));
      ("SHOW TABLES IN main.payer",
       Ok (Some (mkFrame ["database"; "tableName"; "isTemporary"]
                   [[SStr "payer"; SStr "claims_enriched"; SStr "false"]]))) ].

(** A table listing with a single column that is not called "tableName". *)
Definition one_column_listing : DataFrame :=
  mkFrame ["name"] [[SStr "claims_enriched"]].

(* ------------------------------------------------------------------------- *)
(** ** Vocabulary of the statements *)

(** The state [s] after the script drew or did [es] more. *)
Definition after (s : state) (es : list event) : state :=
  mkState (connection s) (log s ++ es)%list.

(** The page as the script leaves it before the first selector stage. *)
Definition page_top (cached : option Connection) : state :=
  mkState cached
    [PageConfig;
     Title "💳 Claims Enriched Table Explorer (Horizontal Filters + Analytics)";
     Columns 3].

(** The notices that precede [st.stop()] in the script. *)
Definition halt_notice (e : event) : Prop :=
  In e [ErrorBox "No catalogs available; check permissions.";
        WarningBox "No catalogs match.";
        ErrorBox "No schemas found.";
        WarningBox "No schemas match.";
        WarningBox "No tables in this schema.";
        WarningBox "No tables match."].

(** The SQL statements sent, in order. *)
Fixpoint queries (l : list event) : list string :=
  match l with
  | [] => []
  | Execute q :: l' => q :: queries l'
  | _ :: l' => queries l'
  end.

(** What was drawn on the page, in order: everything but the traffic with
    the warehouse. *)
Fixpoint rendered (l : list event) : list event :=
  match l with
  | [] => []
  | Connect _ _ :: l' => rendered l'
  | Execute _ :: l' => rendered l'
  | e :: l' => e :: rendered l'
  end.

(** Whenever [m] ends in [st.stop()], the last thing on the page is one of
    the halt notices. *)
Definition halts_noted {A} (m : M A) : Prop :=
  forall s t, m s = (Stopped, t) ->
    exists pre n, log t = (pre ++ [n])%list /\ halt_notice n.

(** What [get_connection] obtains when nothing is cached. *)
Definition fresh_connection (W : Warehouse) : result Connection :=
  sql_connect W (host (cfg W)) ("/sql/1.0/warehouses/" ++ warehouse_id (cfg W)).

(** The cache only ever moves from empty to the connection that
    [sql.connect] returns. *)
Definition cache_step (W : Warehouse) (c c' : option Connection) : Prop :=
  c' = c
  \/ (c = None /\ exists conn, fresh_connection W = Ok conn /\ c' = Some conn).

(** Two states that show the same page and sent the same statements, the
    second possibly one [cache_step] ahead of the first. *)
Definition same_page (W : Warehouse) (s s' : state) : Prop :=
  rendered (log s) = rendered (log s')
  /\ queries (log s) = queries (log s')
  /\ cache_step W (connection s) (connection s').

(** [m] cannot tell such states apart. *)
Definition cache_blind (W : Warehouse) {A} (m : M A) : Prop :=
  forall s s', same_page W s s' ->
    fst (m s) = fst (m s')
    /\ same_page W (snd (m s)) (snd (m s'))
    /\ cache_step W (connection s) (connection (snd (m s))).

(* ------------------------------------------------------------------------- *)
(** ** Further vocabulary and examples *)

(** A cell is a string. *)
Definition is_str (c : scalar) : Prop := exists s, c = SStr s.

(** A name column as the warehouse returns it: SQL NULL or a string. *)
Definition cell_of (v : option string) : scalar :=
  match v with
  | Some s => SStr s
  | None => SNull
  end.

(** How many times [sql.connect] was called. *)
Fixpoint connects (l : list event) : nat :=
  match l with
  | [] => 0
  | Connect _ _ :: l' => S (connects l')
  | _ :: l' => connects l'
  end.

(** Connections a run may still open: one while the cache is empty. *)
Definition may_connect (c : option Connection) : nat :=
  match c with
  | Some _ => 0
  | None => 1
  end.

(** The nine statements of the analytics block, in the order of the script. *)
Definition analytics_statements (table_fqn : string) : list string :=
  [preview_q table_fqn; kpi_query table_fqn; status_q table_fqn;
   monthly_trend_q table_fqn; denial_reason_q table_fqn;
   denial_by_provider_q table_fqn; diag_q table_fqn; prov_q table_fqn;
   outlier_q table_fqn].

(** The statements of a pass that reaches the last panel with catalog [c],
    schema [sch] and table [t]. *)
Definition pass_statements (c sch t : string) : list string :=
  ["SHOW CATALOGS"; "SHOW SCHEMAS IN " ++ c; "SHOW TABLES IN " ++ c ++ "." ++ sch]
  ++ analytics_statements (c ++ "." ++ sch ++ "." ++ t).

(** [p] is an initial segment of [l]. *)
Definition initial_segment {A} (p l : list A) : Prop :=
  exists rest, l = (p ++ rest)%list.

(** Leading blanks and line feeds removed. *)
Fixpoint skip_blank (s : string) : string :=
  match s with
  | String c s' =>
      if (Ascii.eqb c " " || Ascii.eqb c "010")%bool then skip_blank s' else s
  | EmptyString => EmptyString
  end.

(** The statement starts with the keyword SHOW or SELECT. *)
Definition is_read_statement (q : string) : bool :=
  String.prefix "SHOW " (skip_blank q) || String.prefix "SELECT " (skip_blank q).

(** [m] adds only read statements to the statements sent. *)
Definition only_reads {A} (m : M A) : Prop :=
  forall s,
    Forall (fun q => is_read_statement q = true) (queries (log s)) ->
    Forall (fun q => is_read_statement q = true) (queries (log (snd (m s)))).

(** [m] sends an initial segment of [qs], all of [qs] when it returns, and
    opens at most the connection the cache allows. *)
Definition sends {A} (qs : list string) (m : M A) : Prop :=
  forall s,
    exists sent,
      queries (log (snd (m s))) = (queries (log s) ++ sent)%list
      /\ initial_segment sent qs
      /\ (forall a, fst (m s) = Done a -> sent = qs).

(** [m] never ends in [st.stop()]. *)
Definition never_stops {A} (m : M A) : Prop :=
  forall s, fst (m s) <> Stopped.

(** Connections opened by [m] stay within what the cache allows; a run that
    goes on leaves the cache filled when it connected. *)
Definition connects_within {A} (m : M A) : Prop :=
  forall s,
    connects (log (snd (m s)))
    + match fst (m s) with
      | Raised _ => 0
      | _ => may_connect (connection (snd (m s)))
      end
    <= connects (log s) + may_connect (connection s).

(** [sql.connect] fails. *)
Definition unreachable : Warehouse :=
  mkWarehouse demo_cfg
    (fun _ _ => Raise ConnectionError)
    (fun _ query => answer_of selector_answers query).

(** A catalog listing whose only name is the empty string. *)
Definition blank_catalog : Warehouse :=
  warehouse_of
    [ ("SHOW CATALOGS", Ok (Some (mkFrame ["catalog"] [[SStr ""]])));
      ("SHOW SCHEMAS IN ", Ok (Some (mkFrame ["databaseName"] [[SStr "payer"]]))) ].


(** A trend answer without the column "month". *)
Definition trend_without_month : Warehouse :=
  warehouse_of
    [ (monthly_trend_q demo_fqn,
       Ok (Some (mkFrame ["charges"; "denied_amt"] [[SNum (100 # 1)%Q; SNum (10 # 1)%Q]])));
      (denial_by_provider_q demo_fqn,
       Ok (Some (mkFrame ["denial_rate"; "total"] [[SNum (1 # 2)%Q; SInt 4%Z]]))) ].

(** A selector offers at least the option its index points to. *)
Definition in_range (e : event) : Prop :=
  match e with
  | Selectbox _ options idx _ => idx < List.length options
  | _ => True
  end.

(** [m] draws only selectors whose index is within their options. *)
Definition draws_in_range {A} (m : M A) : Prop :=
  forall s, Forall in_range (log s) -> Forall in_range (log (snd (m s))).


(* ------------------------------------------------------------------------- *)
(** ** Ignoring case, said without [lower] *)

(** Every character is ASCII (code below 128).  On such strings
    [PyStr.lower] is exactly [str.lower]; the statements about case are made
    for them. *)
Fixpoint ascii_only (s : string) : Prop :=
  match s with
  | EmptyString => True
  | String c s' => (N_of_ascii c < 128)%N /\ ascii_only s'
  end.

(** A cell that is a string holds an ASCII string. *)
Definition ascii_cell (c : scalar) : Prop :=
  match c with
  | SStr s => ascii_only s
  | _ => True
  end.






(* ------------------------------------------------------------------------- *)
(** ** Two passes over the same content *)











(* ========================================================================= *)
(** * Properties *)

Unset Implicit Arguments.

(* ------------------------------------------------------------------------- *)
(** ** Strings *)

Lemma prefix_app (sub s : string) :
  String.prefix sub s = true <-> exists post, s = sub ++ post.
Proof.
  revert s; induction sub as [|a sub IH]; intros s.
  - destruct s; simpl; split; eauto.
  - destruct s as [|b s]; simpl.
    + split; [discriminate | intros [post H]; discriminate].
    + destruct (Ascii.ascii_dec a b) as [->|Hab].
      * rewrite IH. split; intros [post H]; exists post.
        -- now rewrite H.
        -- now inversion H.
      * split; [discriminate | intros [post H]; inversion H; congruence].
Qed.

Lemma str_in_Substring (sub s : string) :
  PyStr.str_in sub s = true <-> PyStr.Substring sub s.
Proof.
  unfold PyStr.Substring.
  induction s as [|c s IH]; cbn [PyStr.str_in].
  - rewrite orb_false_r, prefix_app. split.
    + intros [post H]. exists "", post. exact H.
    + intros [pre [post H]]. destruct pre; simpl in H.
      * eauto.
      * discriminate.
  - rewrite orb_true_iff, prefix_app, IH. split.
    + intros [[post H] | [pre [post H]]].
      * exists "", post. exact H.
      * exists (String c pre), post. simpl. now rewrite H.
    + intros [pre [post H]]. destruct pre as [|a pre]; simpl in H.
      * left. eauto.
      * right. inversion H. eauto.
Qed.


(* ------------------------------------------------------------------------- *)
(** ** The filter *)

Lemma filtered_strings (flt : string) (names : list string) :
  filtered flt (map SStr names) =
  Ok (filter (fun c => PyStr.str_in (PyStr.lower flt) (PyStr.lower c)) names).
Proof.
  induction names as [|c names IH]; simpl.
  - reflexivity.
  - rewrite IH. simpl. reflexivity.
Qed.

Lemma string_app_assoc (a b c : string) : (a ++ b) ++ c = a ++ (b ++ c).
Proof. induction a as [|x a IH]; simpl; [reflexivity | now rewrite IH]. Qed.

Lemma lower_app (a b : string) :
  PyStr.lower (a ++ b) = PyStr.lower a ++ PyStr.lower b.
Proof. induction a as [|x a IH]; simpl; [reflexivity | now rewrite IH]. Qed.









(** Scenario 1 of the specification. *)
Example filtered_scenario_1 :
  filtered "cla" [SStr "sales"; SStr "claims_db"] = Ok ["claims_db"].
Proof. reflexivity. Qed.

Example filtered_ignores_case :
  filtered "CLA" [SStr "Sales"; SStr "Claims_DB"] = Ok ["Claims_DB"].
Proof. reflexivity. Qed.

(* ------------------------------------------------------------------------- *)
(** ** The default table *)

Lemma index_of_Some (x : string) (l : list string) (i : nat) :
  index_of x l = Some i -> nth_error l i = Some x.
Proof.
  revert i; induction l as [|y l IH]; intros i; simpl.
  - discriminate.
  - destruct (String.eqb_spec y x) as [->|Hne].
    + intros [= <-]. reflexivity.
    + destruct (index_of x l) as [j|]; simpl; [|discriminate].
      intros [= <-]. simpl. now apply IH.
Qed.

Lemma index_of_None (x : string) (l : list string) :
  index_of x l = None <-> ~ In x l.
Proof.
  induction l as [|y l IH]; simpl.
  - tauto.
  - destruct (String.eqb_spec y x) as [->|Hne].
    + split; [discriminate | tauto].
    + destruct (index_of x l) as [j|]; simpl.
      * split; [discriminate|]. intros H. exfalso. apply H. right.
        destruct (in_dec string_dec x l) as [Hin|Hout]; [assumption|].
        apply IH in Hout. discriminate.
      * split; [|reflexivity]. intros _ [Heq|Hin]; [congruence|].
        now apply (proj1 IH).
Qed.

Lemma default_idx_present (l : list string) :
  In "claims_enriched" l -> nth_error l (default_idx l) = Some "claims_enriched".
Proof.
  intros Hin. unfold default_idx.
  destruct (index_of "claims_enriched" l) as [i|] eqn:E.
  - now apply index_of_Some.
  - apply index_of_None in E. contradiction.
Qed.

Lemma default_idx_absent (l : list string) :
  ~ In "claims_enriched" l -> default_idx l = 0.
Proof.
  intros Hout. unfold default_idx.
  apply index_of_None in Hout. now rewrite Hout.
Qed.

(** C2. With no option kept for the table selector, the selector returns
    "claims_enriched" whenever it is among the filtered tables, wherever it
    stands in the list, and the first filtered table otherwise. *)
Theorem default_selection_prefers_claims_enriched :
  forall (u : ui) (filtered_tables : list string) (s : state),
    choice_of u "table_select" = None ->
    (In "claims_enriched" filtered_tables ->
       fst (st_selectbox u "Table" filtered_tables (default_idx filtered_tables)
              "table_select" s) = Done (Some "claims_enriched"))
    /\ (~ In "claims_enriched" filtered_tables ->
       fst (st_selectbox u "Table" filtered_tables (default_idx filtered_tables)
              "table_select" s) = Done (hd_error filtered_tables)).
Proof.
  intros u l s Hnone. unfold st_selectbox, bind, emit, ret. simpl.
  rewrite Hnone. split; intros H.
  - now rewrite default_idx_present.
  - rewrite default_idx_absent by assumption. now destruct l.
Qed.

(* ------------------------------------------------------------------------- *)
(** ** The column of table names *)

Lemma has_column_In (df : DataFrame) (name : string) :
  has_column df name = true <-> In name (columns df).
Proof.
  unfold has_column. rewrite existsb_exists. split.
  - intros [c [Hin Heq]]. apply String.eqb_eq in Heq. now subst.
  - intros Hin. exists name. split; [assumption | apply String.eqb_refl].
Qed.

Lemma positions_from_notin (i : nat) (name : string) (cols : list string) :
  ~ In name cols -> positions_from i name cols = [].
Proof.
  revert i; induction cols as [|c cols IH]; intros i Hout; simpl.
  - reflexivity.
  - destruct (String.eqb_spec c name) as [->|Hne].
    + exfalso. apply Hout. now left.
    + apply IH. intros Hin. apply Hout. now right.
Qed.

Lemma positions_from_unique (i k : nat) (name : string) (cols : list string) :
  NoDup cols -> nth_error cols k = Some name ->
  positions_from i name cols = [i + k].
Proof.
  revert i k; induction cols as [|c cols IH]; intros i k Hnd Hk.
  - destruct k; discriminate.
  - inversion Hnd as [|? ? Hout Hnd']; subst. destruct k as [|k]; simpl in *.
    + injection Hk as ->. rewrite String.eqb_refl.
      rewrite positions_from_notin by assumption.
      now rewrite Nat.add_0_r.
    + destruct (String.eqb_spec c name) as [->|Hne].
      * exfalso. apply Hout. eapply nth_error_In; eassumption.
      * rewrite (IH (S i) k) by assumption. f_equal. lia.
Qed.

Lemma positions_unique (k : nat) (name : string) (cols : list string) :
  NoDup cols -> nth_error cols k = Some name -> positions name cols = [k].
Proof. intros. unfold positions. now rewrite positions_from_unique with (k := k). Qed.

(** C6. The table stage takes the label "tableName" when the result has a
    column of that name, and the label found at position 1 exactly when it
    has none; on a result with distinct labels the candidates are then the
    non-null cells of the column so chosen. *)
Theorem tcol_name_first_then_position_1 :
  forall df : DataFrame,
    (In "tableName" (columns df) -> tcol df = Ok "tableName")
    /\ (~ In "tableName" (columns df) -> tcol df = columns_getitem df 1)
    /\ (NoDup (columns df) ->
        forall i, nth_error (columns df) i = Some "tableName" ->
          rbind (tcol df) (getitem_dropna_tolist df) = Ok (dropna (column_at df i)))
    /\ (NoDup (columns df) ->
        ~ In "tableName" (columns df) -> 2 <= List.length (columns df) ->
          rbind (tcol df) (getitem_dropna_tolist df) = Ok (dropna (column_at df 1))).
Proof.
  intros df. unfold tcol.
  split; [|split; [|split]].
  - intros Hin. apply has_column_In in Hin. now rewrite Hin.
  - intros Hout. destruct (has_column df "tableName") eqn:E; [|reflexivity].
    apply has_column_In in E. contradiction.
  - intros Hnd i Hi.
    assert (Hin : has_column df "tableName" = true).
    { apply has_column_In. eapply nth_error_In; eassumption. }
    rewrite Hin. simpl. unfold getitem_dropna_tolist.
    now rewrite positions_unique with (k := i).
  - intros Hnd Hout Hlen.
    destruct (has_column df "tableName") eqn:E.
    { apply has_column_In in E. contradiction. }
    unfold columns_getitem.
    destruct (nth_error (columns df) 1) as [c|] eqn:Hc.
    + simpl. unfold getitem_dropna_tolist.
      now rewrite positions_unique with (k := 1).
    + apply nth_error_None in Hc. lia.
Qed.

(* ------------------------------------------------------------------------- *)
(** ** Running the executor *)

Create HintDb run.
#[local] Hint Unfold bind ret lift emit st_stop st_text_input st_selectbox : run.

(** Unfold the monad's operations and reduce. *)
Ltac run :=
  repeat (progress (autounfold with run; cbn beta iota zeta delta [log connection])).

Lemma run_query_connected (W : Warehouse) (q : string) (s : state) (conn : Connection) :
  connection s = Some conn ->
  run_query W q s =
  match execute W conn q with
  | Ok r => (Done (or_empty r), after s [Execute q])
  | Raise e => (Raised e, after s [Execute q])
  end.
Proof.
  intros Hc. unfold run_query, bind, get_connection, emit, lift, ret, after.
  rewrite Hc. simpl. rewrite Hc.
  destruct (execute W conn q); reflexivity.
Qed.

Lemma getitem_cell0_empty (df : DataFrame) (name : string) :
  empty df = true -> getitem_cell0 df name = Raise KeyError.
Proof.
  unfold empty, getitem_cell0. destruct df as [cols rws]; simpl.
  destruct cols as [|c cols].
  - reflexivity.
  - destruct rws as [|r rws]; [|discriminate]. intros _.
    destruct (positions name (c :: cols)) as [|i [|j ps]]; reflexivity.
Qed.

(* ------------------------------------------------------------------------- *)
(** ** The KPI row on an answer without rows *)

(** The KPI row has no test of [kpi.empty]: on a successful answer without
    rows, reading row 0 of "total_claims" raises [KeyError] right after the
    five metric columns are laid out, and no placeholder is drawn. *)
Theorem kpi_panel_raises_on_empty_result :
  forall (W : Warehouse) (table_fqn : string) (s : state) (conn : Connection)
         (r : option DataFrame),
    connection s = Some conn ->
    execute W conn (kpi_query table_fqn) = Ok r ->
    empty (or_empty r) = true ->
    kpi_panel W table_fqn s =
    (Raised KeyError, after s [Execute (kpi_query table_fqn); Columns 5]).
Proof.
  intros W fqn s conn r Hc Hx He.
  unfold kpi_panel, bind at 1.
  rewrite run_query_connected with (conn := conn) by assumption. rewrite Hx.
  unfold bind, emit, lift. simpl.
  rewrite getitem_cell0_empty by assumption. simpl.
  unfold after. simpl. now rewrite <- app_assoc.
Qed.

Lemma kpi_panel_raises_on_empty_result_witness :
  kpi_panel kpi_without_rows demo_fqn
    (mkState (Some (mkConnection "dbc.example.net" "/sql/1.0/warehouses/wh1")) []) =
  (Raised KeyError,
   mkState (Some (mkConnection "dbc.example.net" "/sql/1.0/warehouses/wh1"))
     [Execute (kpi_query demo_fqn); Columns 5]).
Proof.
  apply (kpi_panel_raises_on_empty_result kpi_without_rows demo_fqn
           (mkState (Some (mkConnection "dbc.example.net" "/sql/1.0/warehouses/wh1")) [])
           (mkConnection "dbc.example.net" "/sql/1.0/warehouses/wh1")
           (Some (mkFrame ["total_claims"; "total_charges"; "distinct_members";
                           "distinct_providers"; "denial_rate"] []))).
  - reflexivity.
  - vm_compute. reflexivity.
  - reflexivity.
Defined.

(* ------------------------------------------------------------------------- *)
(** ** The panels that test [df.empty] *)












(* ------------------------------------------------------------------------- *)
(** ** A table without rows *)

Lemma kpi_answer_zero_rows : kpi_answer [] = Raise QueryExecutionError.
Proof. reflexivity. Qed.

(** C3, as the script behaves. On a table without rows the KPI answer is a
    [QueryExecutionError]; when the preview came back empty and the KPI query
    raises it, the analytics block ends with that exception right after the
    KPI statement was sent: the preview placeholder is on the page, and no
    metric and no later panel follows. *)
Theorem kpi_failure_ends_pass_below_preview :
  forall (W : Warehouse) (table_fqn : string) (s : state) (conn : Connection)
         (r : option DataFrame),
    connection s = Some conn ->
    execute W conn (preview_q table_fqn) = Ok r ->
    empty (or_empty r) = true ->
    execute W conn (kpi_query table_fqn) = kpi_answer [] ->
    analytics W table_fqn s =
    (Raised QueryExecutionError,
     after s [Subheader ("📊 Data from `" ++ table_fqn ++ "`");
              Execute (preview_q table_fqn);
              InfoBox "No data found.";
              Execute (kpi_query table_fqn)]).
Proof.
  intros W fqn s conn r Hc Hp He Hk.
  rewrite kpi_answer_zero_rows in Hk.
  unfold analytics, bind at 1. unfold emit at 1.
  unfold bind at 1. unfold preview_panel, bind at 1.
  rewrite run_query_connected with (conn := conn) by assumption. rewrite Hp.
  rewrite He. cbn [negb]. unfold emit at 1.
  unfold bind at 1. unfold kpi_panel, bind at 1.
  rewrite run_query_connected with (conn := conn) by assumption. rewrite Hk.
  unfold after. cbn [connection log]. repeat rewrite <- app_assoc. reflexivity.
Qed.

Lemma kpi_failure_ends_pass_below_preview_witness :
  analytics zero_rows demo_fqn
    (mkState (Some (mkConnection "dbc.example.net" "/sql/1.0/warehouses/wh1")) []) =
  (Raised QueryExecutionError,
   mkState (Some (mkConnection "dbc.example.net" "/sql/1.0/warehouses/wh1"))
     [Subheader ("📊 Data from `" ++ demo_fqn ++ "`");
      Execute (preview_q demo_fqn);
      InfoBox "No data found.";
      Execute (kpi_query demo_fqn)]).
Proof.
  apply (kpi_failure_ends_pass_below_preview zero_rows demo_fqn
           (mkState (Some (mkConnection "dbc.example.net" "/sql/1.0/warehouses/wh1")) [])
           (mkConnection "dbc.example.net" "/sql/1.0/warehouses/wh1")
           (Some (mkFrame claims_frame_columns []))).
  - reflexivity.
  - vm_compute. reflexivity.
  - reflexivity.
  - vm_compute. reflexivity.
Defined.

(** C3, as claimed, fails: on the warehouse [zero_rows] the whole pass ends
    with the exception of the KPI query; the preview placeholder is drawn,
    yet the status panel below the KPI row never sends its query and never
    draws its heading. *)
Lemma kpi_failure_is_fatal_to_the_pass :
  fst (render_pass zero_rows fresh_ui None) = Raised QueryExecutionError
  /\ In (InfoBox "No data found.") (log (snd (render_pass zero_rows fresh_ui None)))
  /\ ~ In (Execute (status_q demo_fqn)) (log (snd (render_pass zero_rows fresh_ui None)))
  /\ ~ In (Markdown "#### Claims by Status")
          (log (snd (render_pass zero_rows fresh_ui None))).
Proof.
  split; [vm_compute; reflexivity|].
  split; [vm_compute; tauto|].
  split; vm_compute; intros H;
    repeat (destruct H as [H|H]; [discriminate H|]); exact H.
Qed.

(* ------------------------------------------------------------------------- *)
(** ** Halting in the selector stages *)

Section Halting.

Variable W : Warehouse.
Variable u : ui.

Ltac run_stage Hq :=
  unfold bind at 1; rewrite Hq; unfold halt_when.

Lemma catalog_stage_no_candidates (s s' : state) (df : DataFrame) :
  run_query W "SHOW CATALOGS" s = (Done df, s') ->
  empty df = true ->
  catalog_stage W u s =
  (Stopped, after s' [ErrorBox "No catalogs available; check permissions."]).
Proof.
  intros Hq He. unfold catalog_stage. run_stage Hq. rewrite He. reflexivity.
Qed.

Lemma catalog_stage_no_match (s s' : state) (df : DataFrame) (l : list scalar) :
  run_query W "SHOW CATALOGS" s = (Done df, s') ->
  empty df = false ->
  rbind (columns_getitem df 0) (getitem_dropna_tolist df) = Ok l ->
  filtered (text_of u "catalog_filter") l = Ok [] ->
  catalog_stage W u s =
  (Stopped, after s' [TextInput "🔎 Catalog filter" "catalog_filter";
                      WarningBox "No catalogs match."]).
Proof.
  intros Hq He Hl Hf. unfold catalog_stage. run_stage Hq. rewrite He.
  destruct (columns_getitem df 0) as [col|e]; [|discriminate Hl].
  simpl in Hl. run. rewrite Hl. run. rewrite Hf. run.
  unfold after. cbn. now rewrite <- app_assoc.
Qed.

Lemma schema_stage_no_candidates (c : string) (s s' : state) (df : DataFrame) :
  PyStr.truthy c = true ->
  run_query W ("SHOW SCHEMAS IN " ++ c) s = (Done df, s') ->
  empty df = true ->
  schema_stage W u (Some c) s = (Stopped, after s' [ErrorBox "No schemas found."]).
Proof.
  intros Hc Hq He. unfold schema_stage. rewrite Hc. run_stage Hq.
  rewrite He. reflexivity.
Qed.

Lemma schema_stage_no_match (c : string) (s s' : state) (df : DataFrame)
    (l : list scalar) :
  PyStr.truthy c = true ->
  run_query W ("SHOW SCHEMAS IN " ++ c) s = (Done df, s') ->
  empty df = false ->
  rbind (columns_getitem df 0) (getitem_dropna_tolist df) = Ok l ->
  filtered (text_of u "schema_filter") l = Ok [] ->
  schema_stage W u (Some c) s =
  (Stopped, after s' [TextInput "🔎 Schema filter" "schema_filter";
                      WarningBox "No schemas match."]).
Proof.
  intros Hc Hq He Hl Hf. unfold schema_stage. rewrite Hc. run_stage Hq.
  rewrite He.
  destruct (columns_getitem df 0) as [col|e]; [|discriminate Hl].
  simpl in Hl. run. rewrite Hl. run. rewrite Hf. run.
  unfold after. cbn. now rewrite <- app_assoc.
Qed.

Lemma table_stage_no_candidates (c sch : string) (s s' : state) (df : DataFrame) :
  PyStr.truthy c = true -> PyStr.truthy sch = true ->
  run_query W ("SHOW TABLES IN " ++ c ++ "." ++ sch) s = (Done df, s') ->
  empty df = true ->
  table_stage W u (Some c) (Some sch) s =
  (Stopped, after s' [WarningBox "No tables in this schema."]).
Proof.
  intros Hc Hs Hq He. unfold table_stage. rewrite Hc, Hs. cbn [andb].
  run_stage Hq. rewrite He. reflexivity.
Qed.

Lemma table_stage_no_match (c sch : string) (s s' : state) (df : DataFrame)
    (l : list scalar) :
  PyStr.truthy c = true -> PyStr.truthy sch = true ->
  run_query W ("SHOW TABLES IN " ++ c ++ "." ++ sch) s = (Done df, s') ->
  empty df = false ->
  rbind (tcol df) (getitem_dropna_tolist df) = Ok l ->
  filtered (text_of u "table_filter") l = Ok [] ->
  table_stage W u (Some c) (Some sch) s =
  (Stopped, after s' [TextInput "🔎 Table filter" "table_filter";
                      WarningBox "No tables match."]).
Proof.
  intros Hc Hs Hq He Hl Hf. unfold table_stage. rewrite Hc, Hs. cbn [andb].
  run_stage Hq. rewrite He.
  destruct (tcol df) as [col|e]; [|discriminate Hl].
  simpl in Hl. run. rewrite Hl. run. rewrite Hf. run.
  unfold after. cbn. now rewrite <- app_assoc.
Qed.

(** A halt in a stage is a halt of the pass, with the page as the stage
    left it. *)
Lemma pass_stops_in_catalog_stage (cached : option Connection) (t : state) :
  catalog_stage W u (page_top cached) = (Stopped, t) ->
  render_pass W u cached = (Stopped, t).
Proof.
  intros H. unfold render_pass, script.
  change (bind (catalog_stage W u)
            (fun selected_catalog =>
               selected_schema <- schema_stage W u selected_catalog ;;
               selected_table <- table_stage W u selected_catalog selected_schema ;;
               match selected_catalog, selected_schema, selected_table with
               | Some catalog, Some schema, Some table =>
                   if PyStr.truthy catalog && PyStr.truthy schema && PyStr.truthy table
                   then analytics W (catalog ++ "." ++ schema ++ "." ++ table)
                   else ret tt
               | _, _, _ => ret tt
               end) (page_top cached) = (Stopped, t)).
  unfold bind at 1. now rewrite H.
Qed.

Lemma pass_stops_in_schema_stage (cached : option Connection) (c : option string)
    (s1 t : state) :
  catalog_stage W u (page_top cached) = (Done c, s1) ->
  schema_stage W u c s1 = (Stopped, t) ->
  render_pass W u cached = (Stopped, t).
Proof.
  intros H1 H2. unfold render_pass, script.
  change (bind (catalog_stage W u)
            (fun selected_catalog =>
               selected_schema <- schema_stage W u selected_catalog ;;
               selected_table <- table_stage W u selected_catalog selected_schema ;;
               match selected_catalog, selected_schema, selected_table with
               | Some catalog, Some schema, Some table =>
                   if PyStr.truthy catalog && PyStr.truthy schema && PyStr.truthy table
                   then analytics W (catalog ++ "." ++ schema ++ "." ++ table)
                   else ret tt
               | _, _, _ => ret tt
               end) (page_top cached) = (Stopped, t)).
  unfold bind at 1. rewrite H1. unfold bind at 1. now rewrite H2.
Qed.

Lemma pass_stops_in_table_stage (cached : option Connection)
    (c sch : option string) (s1 s2 t : state) :
  catalog_stage W u (page_top cached) = (Done c, s1) ->
  schema_stage W u c s1 = (Done sch, s2) ->
  table_stage W u c sch s2 = (Stopped, t) ->
  render_pass W u cached = (Stopped, t).
Proof.
  intros H1 H2 H3. unfold render_pass, script.
  change (bind (catalog_stage W u)
            (fun selected_catalog =>
               selected_schema <- schema_stage W u selected_catalog ;;
               selected_table <- table_stage W u selected_catalog selected_schema ;;
               match selected_catalog, selected_schema, selected_table with
               | Some catalog, Some schema, Some table =>
                   if PyStr.truthy catalog && PyStr.truthy schema && PyStr.truthy table
                   then analytics W (catalog ++ "." ++ schema ++ "." ++ table)
                   else ret tt
               | _, _, _ => ret tt
               end) (page_top cached) = (Stopped, t)).
  unfold bind at 1. rewrite H1. unfold bind at 1. rewrite H2.
  unfold bind at 1. now rewrite H3.
Qed.

End Halting.

(* ------------------------------------------------------------------------- *)
(** ** Nothing follows a halt *)

Lemma halts_noted_ret {A} (a : A) : halts_noted (ret a).
Proof. intros s t H. discriminate H. Qed.

Lemma halts_noted_emit (e : event) : halts_noted (emit e).
Proof. intros s t H. discriminate H. Qed.

Lemma halts_noted_lift {A} (r : result A) : halts_noted (lift r).
Proof. intros s t H. unfold lift in H. destruct r; discriminate H. Qed.

Lemma halts_noted_get_connection (W : Warehouse) : halts_noted (get_connection W).
Proof.
  intros s t H. unfold get_connection in H.
  destruct (connection s); [discriminate H|].
  destruct (sql_connect W _ _); discriminate H.
Qed.

Lemma halts_noted_bind {A B} (m : M A) (k : A -> M B) :
  halts_noted m -> (forall a, halts_noted (k a)) -> halts_noted (bind m k).
Proof.
  intros Hm Hk s t H. unfold bind in H.
  destruct (m s) as [[a| |e] s'] eqn:E.
  - eapply Hk; eassumption.
  - injection H as <-. eapply Hm; eassumption.
  - discriminate H.
Qed.

Lemma halts_noted_halt_when (b : bool) (n : event) :
  halt_notice n -> halts_noted (halt_when b n).
Proof.
  intros Hn s t H. unfold halt_when in H. destruct b.
  - injection H as <-. exists (log s), n. split; [reflexivity | assumption].
  - discriminate H.
Qed.

Ltac noted :=
  repeat first
    [ apply halts_noted_ret
    | apply halts_noted_emit
    | apply halts_noted_lift
    | apply halts_noted_get_connection
    | apply halts_noted_halt_when; unfold halt_notice; simpl; tauto
    | apply halts_noted_bind; [|intros ?]
    | match goal with
      | |- halts_noted (if ?b then _ else _) => destruct b
      | |- halts_noted (match ?x with _ => _ end) => destruct x
      end ].

Lemma halts_noted_run_query (W : Warehouse) (q : string) :
  halts_noted (run_query W q).
Proof. unfold run_query. noted. Qed.

Lemma halts_noted_catalog_stage (W : Warehouse) (u : ui) :
  halts_noted (catalog_stage W u).
Proof.
  unfold catalog_stage, st_text_input, st_selectbox.
  repeat first [apply halts_noted_run_query | progress noted].
Qed.

Lemma halts_noted_schema_stage (W : Warehouse) (u : ui) (c : option string) :
  halts_noted (schema_stage W u c).
Proof.
  unfold schema_stage, st_text_input, st_selectbox.
  repeat first [apply halts_noted_run_query | progress noted].
Qed.

Lemma halts_noted_table_stage (W : Warehouse) (u : ui) (c sch : option string) :
  halts_noted (table_stage W u c sch).
Proof.
  unfold table_stage, st_text_input, st_selectbox.
  repeat first [apply halts_noted_run_query | progress noted].
Qed.

Lemma halts_noted_analytics (W : Warehouse) (fqn : string) :
  halts_noted (analytics W fqn).
Proof.
  unfold analytics, preview_panel, kpi_panel, status_panel, trend_panel,
    denial_reason_panel, denial_by_provider_panel, diag_panel, prov_panel,
    outlier_panel.
  repeat first [apply halts_noted_run_query | progress noted].
Qed.

Lemma halts_noted_script (W : Warehouse) (u : ui) : halts_noted (script W u).
Proof.
  unfold script.
  repeat first
    [ apply halts_noted_catalog_stage
    | apply halts_noted_schema_stage
    | apply halts_noted_table_stage
    | apply halts_noted_analytics
    | progress noted ].
Qed.

(** C5, as the script behaves. In each selector stage an empty listing and
    an empty filtered list (so also a listing without any candidate) stop the
    whole pass; the page then ends with the stage's notice, directly after
    the stage's query (and filter box), so that no later widget is drawn and
    no later query is sent.  The notice for an empty listing is an error box
    in the catalog and schema stages and a warning in the table stage; for
    an empty filtered list it is a warning in every stage.  In general, a
    pass that stops always ends its page with one of these six notices. *)
Theorem selector_stages_halt_after_notice :
  forall (W : Warehouse) (u : ui) (cached : option Connection),
    (* catalog stage *)
    (forall df s',
        run_query W "SHOW CATALOGS" (page_top cached) = (Done df, s') ->
        (empty df = true ->
         render_pass W u cached =
         (Stopped, after s' [ErrorBox "No catalogs available; check permissions."]))
        /\ (forall l,
               empty df = false ->
               rbind (columns_getitem df 0) (getitem_dropna_tolist df) = Ok l ->
               filtered (text_of u "catalog_filter") l = Ok [] ->
               render_pass W u cached =
               (Stopped, after s' [TextInput "🔎 Catalog filter" "catalog_filter";
                                   WarningBox "No catalogs match."])))
    (* schema stage *)
    /\ (forall c s1 df s',
           catalog_stage W u (page_top cached) = (Done (Some c), s1) ->
           PyStr.truthy c = true ->
           run_query W ("SHOW SCHEMAS IN " ++ c) s1 = (Done df, s') ->
           (empty df = true ->
            render_pass W u cached =
            (Stopped, after s' [ErrorBox "No schemas found."]))
           /\ (forall l,
                  empty df = false ->
                  rbind (columns_getitem df 0) (getitem_dropna_tolist df) = Ok l ->
                  filtered (text_of u "schema_filter") l = Ok [] ->
                  render_pass W u cached =
                  (Stopped, after s' [TextInput "🔎 Schema filter" "schema_filter";
                                      WarningBox "No schemas match."])))
    (* table stage *)
    /\ (forall c sch s1 s2 df s',
           catalog_stage W u (page_top cached) = (Done (Some c), s1) ->
           schema_stage W u (Some c) s1 = (Done (Some sch), s2) ->
           PyStr.truthy c = true -> PyStr.truthy sch = true ->
           run_query W ("SHOW TABLES IN " ++ c ++ "." ++ sch) s2 = (Done df, s') ->
           (empty df = true ->
            render_pass W u cached =
            (Stopped, after s' [WarningBox "No tables in this schema."]))
           /\ (forall l,
                  empty df = false ->
                  rbind (tcol df) (getitem_dropna_tolist df) = Ok l ->
                  filtered (text_of u "table_filter") l = Ok [] ->
                  render_pass W u cached =
                  (Stopped, after s' [TextInput "🔎 Table filter" "table_filter";
                                      WarningBox "No tables match."])))
    (* nothing follows a halt *)
    /\ (forall t,
           render_pass W u cached = (Stopped, t) ->
           exists pre n, log t = (pre ++ [n])%list /\ halt_notice n).
Proof.
  intros W u cached. split; [|split; [|split]].
  - intros df s' Hq. split.
    + intros He. apply pass_stops_in_catalog_stage.
      now apply catalog_stage_no_candidates with (df := df).
    + intros l He Hl Hf. apply pass_stops_in_catalog_stage.
      now apply catalog_stage_no_match with (df := df) (l := l).
  - intros c s1 df s' H1 Hc Hq. split.
    + intros He. apply pass_stops_in_schema_stage with (c := Some c) (s1 := s1);
        [assumption|].
      now apply schema_stage_no_candidates with (df := df).
    + intros l He Hl Hf.
      apply pass_stops_in_schema_stage with (c := Some c) (s1 := s1);
        [assumption|].
      now apply schema_stage_no_match with (df := df) (l := l).
  - intros c sch s1 s2 df s' H1 H2 Hc Hs Hq. split.
    + intros He.
      apply pass_stops_in_table_stage
        with (c := Some c) (sch := Some sch) (s1 := s1) (s2 := s2);
        [assumption | assumption |].
      now apply table_stage_no_candidates with (df := df).
    + intros l He Hl Hf.
      apply pass_stops_in_table_stage
        with (c := Some c) (sch := Some sch) (s1 := s1) (s2 := s2);
        [assumption | assumption |].
      now apply table_stage_no_match with (df := df) (l := l).
  - intros t H. unfold render_pass in H.
    exact (halts_noted_script W u _ _ H).
Qed.

(** Scenario 4 through the theorem: the catalog "main" lists no schema. *)
Lemma selector_stages_halt_after_notice_witness :
  render_pass no_schemas fresh_ui None =
  (Stopped,
   mkState (Some (mkConnection "dbc.example.net" "/sql/1.0/warehouses/wh1"))
     [PageConfig;
      Title "💳 Claims Enriched Table Explorer (Horizontal Filters + Analytics)";
      Columns 3;
      Connect "dbc.example.net" "/sql/1.0/warehouses/wh1";
      Execute "SHOW CATALOGS";
      TextInput "🔎 Catalog filter" "catalog_filter";
      Selectbox "Catalog" ["main"] 0 "catalog_select";
      Execute "SHOW SCHEMAS IN main";
      ErrorBox "No schemas found."]).
Proof.
  refine (proj1 (proj1 (proj2 (selector_stages_halt_after_notice
                                 no_schemas fresh_ui None))
                   "main"
                   (mkState (Some (mkConnection "dbc.example.net" "/sql/1.0/warehouses/wh1"))
                      [PageConfig;
                       Title "💳 Claims Enriched Table Explorer (Horizontal Filters + Analytics)";
                       Columns 3;
                       Connect "dbc.example.net" "/sql/1.0/warehouses/wh1";
                       Execute "SHOW CATALOGS";
                       TextInput "🔎 Catalog filter" "catalog_filter";
                       Selectbox "Catalog" ["main"] 0 "catalog_select"])
                   (mkFrame ["databaseName"] [])
                   (mkState (Some (mkConnection "dbc.example.net" "/sql/1.0/warehouses/wh1"))
                      [PageConfig;
                       Title "💳 Claims Enriched Table Explorer (Horizontal Filters + Analytics)";
                       Columns 3;
                       Connect "dbc.example.net" "/sql/1.0/warehouses/wh1";
                       Execute "SHOW CATALOGS";
                       TextInput "🔎 Catalog filter" "catalog_filter";
                       Selectbox "Catalog" ["main"] 0 "catalog_select";
                       Execute "SHOW SCHEMAS IN main"])
                   _ _ _) _).
  - vm_compute. reflexivity.
  - reflexivity.
  - vm_compute. reflexivity.
  - reflexivity.
Defined.

(** C5, as claimed, fails in its parenthesis: with an empty schema listing
    the pass stops after an error box, and no warning is on the page. *)
Lemma empty_schema_listing_is_an_error_box :
  fst (render_pass no_schemas fresh_ui None) = Stopped
  /\ last (log (snd (render_pass no_schemas fresh_ui None))) PageConfig
     = ErrorBox "No schemas found."
  /\ (forall text,
         ~ In (WarningBox text) (log (snd (render_pass no_schemas fresh_ui None)))).
Proof.
  split; [vm_compute; reflexivity|].
  split; [vm_compute; reflexivity|].
  intros text. vm_compute. intros H.
  repeat (destruct H as [H|H]; [discriminate H|]). exact H.
Qed.

(* ------------------------------------------------------------------------- *)
(** ** The denial rate *)

Lemma denied_count_le (t : list claim) : denied_count t <= count_star t.
Proof. unfold denied_count, count_star. apply filter_length_le. Qed.

Lemma denial_rate_value (c : claim) (t : list claim) :
  denial_rate (c :: t) =
  Ok (Z.of_nat (denied_count (c :: t)) # Pos.of_nat (count_star (c :: t)))%Q.
Proof. reflexivity. Qed.

(** C8. On a table with at least one row the KPI quotient is defined and
    lies between 0 and 1; the KPI row then shows it, times 100, as the
    "Denial Rate" metric. *)
Theorem denial_rate_between_0_and_1 :
  forall (t : list claim),
    t <> [] ->
    exists r : Q,
      denial_rate t = Ok r
      /\ (0 <= r)%Q /\ (r <= 1)%Q
      /\ (forall (W : Warehouse) (table_fqn : string) (s : state) (conn : Connection),
             connection s = Some conn ->
             execute W conn (kpi_query table_fqn) = kpi_answer t ->
             kpi_panel W table_fqn s =
             (Done tt,
              after s [Execute (kpi_query table_fqn);
                       Columns 5;
                       Metric "Total Claims" (Count (Z.of_nat (count_star t)));
                       Metric "Total Charges" (Dollars (total_charges t));
                       Metric "Unique Members"
                         (Count (Z.of_nat (count_distinct member_id t)));
                       Metric "Unique Providers"
                         (Count (Z.of_nat (count_distinct provider_id t)));
                       Metric "Denial Rate" (Percent (r * 100)%Q)])).
Proof.
  intros t Hne. destruct t as [|c t]; [contradiction|].
  exists (Z.of_nat (denied_count (c :: t)) # Pos.of_nat (count_star (c :: t)))%Q.
  split; [apply denial_rate_value|].
  pose proof (denied_count_le (c :: t)) as Hle.
  assert (Hpos : Zpos (Pos.of_nat (count_star (c :: t)))
                 = Z.of_nat (count_star (c :: t))).
  { unfold count_star. cbn [List.length].
    rewrite <- Pos.of_nat_succ, Zpos_P_of_succ_nat, Nat2Z.inj_succ. reflexivity. }
  split; [|split].
  - unfold Qle. cbn [Qnum Qden]. lia.
  - unfold Qle. cbn [Qnum Qden]. rewrite Hpos. lia.
  - intros W fqn s conn Hc Hx.
    unfold kpi_panel, bind at 1.
    rewrite run_query_connected with (conn := conn) by assumption.
    rewrite Hx. unfold kpi_answer. rewrite denial_rate_value.
    generalize (kpi_query fqn) as q. intros q.
    generalize (Z.of_nat (denied_count (c :: t)) # Pos.of_nat (count_star (c :: t)))%Q
      as r. intros r.
    generalize (count_star (c :: t)) (total_charges (c :: t))
      (count_distinct member_id (c :: t)) (count_distinct provider_id (c :: t)).
    intros n1 q2 n3 n4.
    run. unfold after. cbn. repeat rewrite <- app_assoc. reflexivity.
Qed.

Lemma denial_rate_between_0_and_1_witness :
  exists r : Q,
    denial_rate demo_claims = Ok r /\ (0 <= r)%Q /\ (r <= 1)%Q.
Proof.
  destruct (denial_rate_between_0_and_1 demo_claims) as [r [Hr [H0 [H1 _]]]].
  - discriminate.
  - exists r. auto.
Defined.

Example denial_rate_demo : denial_rate demo_claims = Ok (1 # 3)%Q.
Proof. reflexivity. Qed.

(* ------------------------------------------------------------------------- *)
(** ** The monthly trend *)

#[local] Arguments remove_nth : simpl never.

Lemma nth_remove_first {A} (p : nat) (r : list A) (d : A) :
  nth p (remove_nth 0 r) d = nth (S p) r d.
Proof. unfold remove_nth. destruct r as [|x r]; [destruct p|]; reflexivity. Qed.

(** C7. The trend statement selects [substr(claim_date,1,7)] as the month,
    groups by it and orders by it; when the answer has the columns of that
    select list and some rows, the line chart receives the months as row
    labels and the two sums as series, row by row in the order of the
    answer. *)
Theorem trend_chart_keeps_answer_order :
  forall (W : Warehouse) (table_fqn : string) (s : state) (conn : Connection)
         (answer : list (list scalar)),
    connection s = Some conn ->
    answer <> [] ->
    execute W conn (monthly_trend_q table_fqn)
      = Ok (Some (mkFrame ["month"; "charges"; "denied_amt"] answer)) ->
    monthly_trend_q table_fqn =
      "
        SELECT substr(claim_date,1,7) as month, SUM(total_charge) as charges,
               SUM(CASE WHEN claim_status='denied' THEN total_charge ELSE 0 END) as denied_amt
        FROM " ++ table_fqn ++ " GROUP BY month ORDER BY month
    "
    /\ trend_panel W table_fqn s =
       (Done tt,
        after s
          [Execute (monthly_trend_q table_fqn);
           Markdown "#### Monthly Charges & Denials";
           LineChart
             (mkIndexed
                (map (fun r => nth 0 r SNull) answer)
                (mkFrame ["charges"; "denied_amt"]
                   (map (fun r => [nth 1 r SNull; nth 2 r SNull]) answer)))]).
Proof.
  intros W fqn s conn answer Hc Hne Hx. split; [reflexivity|].
  unfold trend_panel, bind at 1.
  rewrite run_query_connected with (conn := conn) by assumption.
  rewrite Hx. generalize (monthly_trend_q fqn) as q. intros q.
  destruct answer as [|r0 answer]; [contradiction|].
  run. unfold after. cbn.
  change (remove_nth 0 ["month"; "charges"; "denied_amt"])
    with ["charges"; "denied_amt"].
  cbn. rewrite !nth_remove_first, map_map.
  repeat rewrite <- app_assoc. cbn.
  rewrite (map_ext
             (fun x => [nth 0 (remove_nth 0 x) SNull; nth 1 (remove_nth 0 x) SNull])
             (fun r => [nth 1 r SNull; nth 2 r SNull]))
    by (intros r; now rewrite !nth_remove_first).
  reflexivity.
Qed.

(** Scenario 5 of the specification, through the theorem. *)
Lemma trend_chart_keeps_answer_order_witness :
  trend_panel populated demo_fqn
    (mkState (Some (mkConnection "dbc.example.net" "/sql/1.0/warehouses/wh1")) []) =
  (Done tt,
   mkState (Some (mkConnection "dbc.example.net" "/sql/1.0/warehouses/wh1"))
     [Execute (monthly_trend_q demo_fqn);
      Markdown "#### Monthly Charges & Denials";
      LineChart
        (mkIndexed
           [SStr "2023-01"; SStr "2023-02"]
           (mkFrame ["charges"; "denied_amt"]
              [[SNum (100 # 1)%Q; SNum (10 # 1)%Q];
               [SNum (50 # 1)%Q; SNum 0%Q]]))]).
Proof.
  refine (proj2 (trend_chart_keeps_answer_order populated demo_fqn
                   (mkState (Some (mkConnection "dbc.example.net"
                                     "/sql/1.0/warehouses/wh1")) [])
                   (mkConnection "dbc.example.net" "/sql/1.0/warehouses/wh1")
                   (rows trend_rows) _ _ _)).
  - reflexivity.
  - discriminate.
  - vm_compute. reflexivity.
Defined.

(* ------------------------------------------------------------------------- *)
(** ** Running the pass again *)

Section Repeatable.

Variable W : Warehouse.

Lemma rendered_app (l l' : list event) :
  rendered (l ++ l') = (rendered l ++ rendered l')%list.
Proof.
  induction l as [|e l IH]; simpl; [reflexivity|].
  destruct e; simpl; now rewrite IH.
Qed.

Lemma queries_app (l l' : list event) :
  queries (l ++ l') = (queries l ++ queries l')%list.
Proof.
  induction l as [|e l IH]; simpl; [reflexivity|].
  destruct e; simpl; now rewrite IH.
Qed.

Lemma cache_step_refl (c : option Connection) : cache_step W c c.
Proof. now left. Qed.

Lemma cache_step_trans (c1 c2 c3 : option Connection) :
  cache_step W c1 c2 -> cache_step W c2 c3 -> cache_step W c1 c3.
Proof.
  intros [->|[-> [conn [Hf ->]]]] [->|[H2 [conn' [Hf' ->]]]].
  - now left.
  - right. eauto.
  - right. eauto.
  - discriminate H2.
Qed.

Lemma same_page_refl (s : state) : same_page W s s.
Proof. repeat split. apply cache_step_refl. Qed.

Lemma cache_blind_ret {A} (a : A) : cache_blind W (ret a).
Proof. intros s s' H. simpl. repeat split; try apply H. apply cache_step_refl. Qed.

Lemma cache_blind_stop {A} : cache_blind W (@st_stop A).
Proof. intros s s' H. simpl. repeat split; try apply H. apply cache_step_refl. Qed.

Lemma cache_blind_lift {A} (r : result A) : cache_blind W (lift r).
Proof.
  intros s s' H. unfold lift.
  destruct r; simpl; repeat split; try apply H; apply cache_step_refl.
Qed.

Lemma cache_blind_emit (e : event) : cache_blind W (emit e).
Proof.
  intros s s' [Hr [Hq Hc]]. unfold emit, same_page. simpl.
  rewrite !rendered_app, !queries_app, Hr, Hq.
  repeat split; [assumption | apply cache_step_refl].
Qed.

Lemma cache_blind_get_connection : cache_blind W (get_connection W).
Proof.
  intros [c l] [c' l'] [Hr [Hq Hc]]. simpl in Hr, Hq, Hc.
  unfold get_connection, same_page, cache_step.
  fold (fresh_connection W). simpl.
  destruct Hc as [-> | [-> [conn [Hf ->]]]].
  - destruct c as [conn|].
    + simpl. repeat split; solve [assumption | left; reflexivity].
    + destruct (fresh_connection W) as [conn|e] eqn:Hf; simpl;
        rewrite !rendered_app, !queries_app, Hr, Hq;
        repeat split; solve [left; reflexivity | right; eauto].
  - rewrite Hf. simpl.
    rewrite rendered_app, queries_app. simpl. rewrite !app_nil_r.
    repeat split; solve [assumption | left; reflexivity | right; eauto].
Qed.

Lemma cache_blind_bind {A B} (m : M A) (k : A -> M B) :
  cache_blind W m -> (forall a, cache_blind W (k a)) -> cache_blind W (bind m k).
Proof.
  intros Hm Hk s s' H. unfold bind.
  destruct (Hm s s' H) as [Ho [Hs Hc]].
  destruct (m s) as [o t], (m s') as [o' t']. simpl in Ho, Hs, Hc. subst o'.
  destruct o as [a| |e]; simpl.
  - destruct (Hk a t t' Hs) as [Ho' [Hs' Hc']].
    split; [assumption | split; [assumption|]].
    eapply cache_step_trans; eassumption.
  - split; [reflexivity | split; assumption].
  - split; [reflexivity | split; assumption].
Qed.

Lemma cache_blind_halt_when (b : bool) (n : event) : cache_blind W (halt_when b n).
Proof.
  unfold halt_when. destruct b.
  - apply cache_blind_bind; [apply cache_blind_emit | intros _; apply cache_blind_stop].
  - apply cache_blind_ret.
Qed.

Ltac blind :=
  repeat first
    [ apply cache_blind_ret
    | apply cache_blind_stop
    | apply cache_blind_halt_when
    | apply cache_blind_emit
    | apply cache_blind_lift
    | apply cache_blind_get_connection
    | apply cache_blind_bind; [|intros ?]
    | match goal with
      | |- cache_blind W (if ?b then _ else _) => destruct b
      | |- cache_blind W (match ?x with _ => _ end) => destruct x
      end ].

Lemma cache_blind_run_query (q : string) : cache_blind W (run_query W q).
Proof. unfold run_query. blind. Qed.

Lemma cache_blind_catalog_stage (u : ui) : cache_blind W (catalog_stage W u).
Proof.
  unfold catalog_stage, st_text_input, st_selectbox.
  repeat first [apply cache_blind_run_query | progress blind].
Qed.

Lemma cache_blind_schema_stage (u : ui) (c : option string) :
  cache_blind W (schema_stage W u c).
Proof.
  unfold schema_stage, st_text_input, st_selectbox.
  repeat first [apply cache_blind_run_query | progress blind].
Qed.

Lemma cache_blind_table_stage (u : ui) (c sch : option string) :
  cache_blind W (table_stage W u c sch).
Proof.
  unfold table_stage, st_text_input, st_selectbox.
  repeat first [apply cache_blind_run_query | progress blind].
Qed.

Lemma cache_blind_analytics (fqn : string) : cache_blind W (analytics W fqn).
Proof.
  unfold analytics, preview_panel, kpi_panel, status_panel, trend_panel,
    denial_reason_panel, denial_by_provider_panel, diag_panel, prov_panel,
    outlier_panel.
  repeat first [apply cache_blind_run_query | progress blind].
Qed.

Lemma cache_blind_script (u : ui) : cache_blind W (script W u).
Proof.
  unfold script.
  repeat first
    [ apply cache_blind_catalog_stage
    | apply cache_blind_schema_stage
    | apply cache_blind_table_stage
    | apply cache_blind_analytics
    | progress blind ].
Qed.

End Repeatable.

(** The connection cache is not observable: a second pass over the same
    answers with the same widget values, started with the connection the
    first pass left in the cache, ends the same way, sends the same SQL
    statements in the same order and draws the same page. *)
Theorem second_pass_repeats_first :
  forall (W : Warehouse) (u : ui) (cached : option Connection),
    let first := render_pass W u cached in
    let second := render_pass W u (connection (snd first)) in
    fst second = fst first
    /\ queries (log (snd second)) = queries (log (snd first))
    /\ rendered (log (snd second)) = rendered (log (snd first)).
Proof.
  intros W u cached first second.
  pose proof (cache_blind_script W u) as Hblind.
  destruct (Hblind (mkState cached []) (mkState cached []) (same_page_refl W _))
    as [_ [_ Hstep]].
  fold (render_pass W u cached) in Hstep. fold first in Hstep.
  assert (Hsame : same_page W (mkState cached []) (mkState (connection (snd first)) [])).
  { repeat split. exact Hstep. }
  destruct (Hblind _ _ Hsame) as [Ho [[Hr [Hq _]] _]].
  fold (render_pass W u cached) in Ho, Hr, Hq.
  fold (render_pass W u (connection (snd first))) in Ho, Hr, Hq.
  fold first in Ho, Hr, Hq. fold second in Ho, Hr, Hq.
  auto.
Qed.

Example second_pass_populated :
  let first := render_pass populated fresh_ui None in
  let second := render_pass populated fresh_ui (connection (snd first)) in
  In (Connect "dbc.example.net" "/sql/1.0/warehouses/wh1") (log (snd first))
  /\ ~ In (Connect "dbc.example.net" "/sql/1.0/warehouses/wh1") (log (snd second))
  /\ rendered (log (snd second)) = rendered (log (snd first)).
Proof.
  split; [vm_compute; tauto|].
  split; [|vm_compute; reflexivity].
  vm_compute. intros H.
  repeat (destruct H as [H|H]; [discriminate H|]). exact H.
Qed.

(* ------------------------------------------------------------------------- *)
(** ** The positional fallback *)

(** C10. Without a "tableName" column the label at position 1 exists only
    when the listing has two columns or more.  With fewer, [tcol] raises
    [IndexError]: the table stage ends with that exception right after its
    query, before any candidate list or table widget exists. *)
Theorem tcol_fallback_needs_two_columns :
  forall df : DataFrame,
    ~ In "tableName" (columns df) ->
    (List.length (columns df) < 2 ->
       tcol df = Raise IndexError
       /\ forall (W : Warehouse) (u : ui) (c sch : string) (s s' : state),
            PyStr.truthy c = true -> PyStr.truthy sch = true ->
            run_query W ("SHOW TABLES IN " ++ c ++ "." ++ sch) s = (Done df, s') ->
            empty df = false ->
            table_stage W u (Some c) (Some sch) s = (Raised IndexError, s'))
    /\ (forall col, tcol df = Ok col ->
          2 <= List.length (columns df) /\ nth_error (columns df) 1 = Some col).
Proof.
  intros df Hout.
  assert (Htcol : tcol df = columns_getitem df 1).
  { unfold tcol. destruct (has_column df "tableName") eqn:E; [|reflexivity].
    apply has_column_In in E. contradiction. }
  rewrite Htcol. unfold columns_getitem.
  destruct (nth_error (columns df) 1) as [col|] eqn:Hc.
  - assert (1 < List.length (columns df)).
    { apply nth_error_Some. congruence. }
    split; [lia|]. intros col' [= <-]. split; [lia | reflexivity].
  - split; [|discriminate]. intros _. split; [reflexivity|].
    intros W u c sch s s' Htc Hts Hq He.
    unfold table_stage. rewrite Htc, Hts. cbn [andb].
    unfold bind at 1. rewrite Hq. unfold halt_when. rewrite He.
    run. rewrite Htcol. unfold columns_getitem. rewrite Hc. reflexivity.
Qed.

Lemma tcol_fallback_needs_two_columns_witness :
  tcol one_column_listing = Raise IndexError.
Proof.
  refine (proj1 (proj1 (tcol_fallback_needs_two_columns one_column_listing _) _)).
  - simpl. intros [H|[]]. discriminate H.
  - simpl. lia.
Defined.

Lemma tcol_name_first_then_position_1_witness :
  rbind (tcol (mkFrame ["database"; "tableName"; "isTemporary"]
                 [[SStr "payer"; SStr "claims_raw"; SStr "false"];
                  [SStr "payer"; SNull; SStr "false"];
                  [SStr "payer"; SStr "claims_enriched"; SStr "false"]]))
    (getitem_dropna_tolist
       (mkFrame ["database"; "tableName"; "isTemporary"]
          [[SStr "payer"; SStr "claims_raw"; SStr "false"];
           [SStr "payer"; SNull; SStr "false"];
           [SStr "payer"; SStr "claims_enriched"; SStr "false"]]))
  = Ok [SStr "claims_raw"; SStr "claims_enriched"].
Proof.
  refine (proj1 (proj2 (proj2 (tcol_name_first_then_position_1
            (mkFrame ["database"; "tableName"; "isTemporary"]
               [[SStr "payer"; SStr "claims_raw"; SStr "false"];
                [SStr "payer"; SNull; SStr "false"];
                [SStr "payer"; SStr "claims_enriched"; SStr "false"]])))) _ 1 _).
  - simpl. repeat constructor; simpl; intuition discriminate.
  - reflexivity.
Defined.

(** Scenario 2 of the specification; the preferred table need not come
    first. *)
Lemma default_selection_prefers_claims_enriched_witness :
  fst (st_selectbox fresh_ui "Table" ["claims_raw"; "claims_staging"; "claims_enriched"]
         (default_idx ["claims_raw"; "claims_staging"; "claims_enriched"])
         "table_select" (mkState None []))
  = Done (Some "claims_enriched").
Proof.
  refine (proj1 (default_selection_prefers_claims_enriched fresh_ui
                   ["claims_raw"; "claims_staging"; "claims_enriched"]
                   (mkState None []) _) _).
  - reflexivity.
  - simpl. tauto.
Defined.

Example default_selection_scenario_2 :
  filtered "claims" [SStr "claims_enriched"; SStr "claims_raw"; SStr "claims_staging"]
    = Ok ["claims_enriched"; "claims_raw"; "claims_staging"]
  /\ default_idx ["claims_enriched"; "claims_raw"; "claims_staging"] = 0
  /\ default_idx ["claims_raw"; "claims_staging"] = 0.
Proof. repeat split. Qed.

(* ========================================================================= *)
(** * Further properties of the script *)

(* ------------------------------------------------------------------------- *)
(** ** More on the filter *)

Lemma Substring_trans (a b c : string) :
  PyStr.Substring a b -> PyStr.Substring b c -> PyStr.Substring a c.
Proof.
  intros [p1 [q1 ->]] [p2 [q2 ->]].
  exists (p2 ++ p1), (q1 ++ q2).
  now rewrite !string_app_assoc.
Qed.

Lemma filtered_In (flt : string) (l : list scalar) (kept : list string) :
  filtered flt l = Ok kept ->
  forall c, In c kept <->
            In (SStr c) l /\ PyStr.Substring (PyStr.lower flt) (PyStr.lower c).
Proof.
  revert kept; induction l as [|x l IH]; intros kept H c; simpl in H.
  - injection H as <-. simpl. tauto.
  - destruct x as [|s|z|q]; simpl in H; try discriminate H.
    destruct (filtered flt l) as [kept'|e]; simpl in H; [|discriminate H].
    injection H as <-. specialize (IH kept' eq_refl c).
    destruct (PyStr.str_in (PyStr.lower flt) (PyStr.lower s)) eqn:E; simpl.
    + rewrite IH. split.
      * intros [->|[Hin Hs]]; [|tauto].
        split; [now left | now apply str_in_Substring].
      * intros [[[= ->]|Hin] Hs]; [now left | tauto].
    + rewrite IH. split.
      * intros [Hin Hs]. tauto.
      * intros [[[= ->]|Hin] Hs]; [|tauto].
        apply str_in_Substring in Hs. congruence.
Qed.

Lemma filtered_Ok_iff (flt : string) (l : list scalar) :
  (exists kept, filtered flt l = Ok kept) <-> Forall is_str l.
Proof.
  induction l as [|x l IH]; simpl.
  - split; [constructor | eauto].
  - split.
    + intros [kept H]. destruct x as [|s|z|q]; simpl in H; try discriminate H.
      destruct (filtered flt l) as [kept'|e] eqn:E; simpl in H; [|discriminate H].
      constructor; [now exists s | apply IH; eauto].
    + intros H. inversion H as [|? ? [s ->] Hl]; subst.
      apply IH in Hl. destruct Hl as [kept' ->]. simpl. eauto.
Qed.

Lemma filtered_raises_AttributeError (flt : string) (l : list scalar) (e : exn) :
  filtered flt l = Raise e -> e = AttributeError.
Proof.
  induction l as [|x l IH]; simpl; [discriminate|].
  destruct x as [|s|z|q]; simpl; try (intros [= <-]; reflexivity).
  destruct (filtered flt l) as [kept'|e'] eqn:E; simpl; [discriminate|].
  intros [= <-]. now apply IH.
Qed.

Lemma filtered_raises_without_strings (flt : string) (l : list scalar) :
  ~ Forall is_str l -> filtered flt l = Raise AttributeError.
Proof.
  intros Hn. destruct (filtered flt l) as [kept|e] eqn:E.
  - exfalso. apply Hn. apply (filtered_Ok_iff flt). eauto.
  - f_equal. eapply filtered_raises_AttributeError. eassumption.
Qed.

(** X1. For ASCII filter texts and candidate names, typing more never adds a
    candidate: every name kept under the filter text [pre ++ flt ++ post] is
    also kept under [flt]. *)
Theorem longer_filter_keeps_fewer :
  forall (pre flt post : string) (candidates : list scalar) (kept_long : list string),
    ascii_only pre -> ascii_only flt -> ascii_only post ->
    Forall ascii_cell candidates ->
    filtered (pre ++ flt ++ post) candidates = Ok kept_long ->
    exists kept,
      filtered flt candidates = Ok kept
      /\ forall c, In c kept_long -> In c kept.
Proof.
  intros pre flt post l kept_long _ _ _ _ H.
  assert (Hs : Forall is_str l) by (apply (filtered_Ok_iff (pre ++ flt ++ post)); eauto).
  apply (filtered_Ok_iff flt) in Hs. destruct Hs as [kept Hk].
  exists kept. split; [assumption|]. intros c Hc.
  apply (filtered_In _ _ _ H) in Hc. destruct Hc as [Hin Hsub].
  apply (filtered_In _ _ _ Hk). split; [assumption|].
  eapply Substring_trans; [|eassumption].
  exists (PyStr.lower pre), (PyStr.lower post). now rewrite !lower_app.
Qed.

Lemma longer_filter_keeps_fewer_witness :
  exists kept,
    filtered "claims" [SStr "claims_raw"; SStr "Claims_Enriched"; SStr "members"] = Ok kept
    /\ forall c, In c ["Claims_Enriched"] -> In c kept.
Proof.
  apply (longer_filter_keeps_fewer "" "claims" "_E"
           [SStr "claims_raw"; SStr "Claims_Enriched"; SStr "members"]
           ["Claims_Enriched"]).
  - exact I.
  - cbv. intuition.
  - cbv. intuition.
  - repeat constructor; cbv; intuition.
  - reflexivity.
Defined.

(** X2. The filter of a stage succeeds exactly when every candidate is a
    string; any other cell makes it raise [AttributeError], whatever the
    filter text. *)
Theorem filter_needs_string_candidates :
  forall (flt : string) (candidates : list scalar),
    ((exists kept, filtered flt candidates = Ok kept) <-> Forall is_str candidates)
    /\ (~ Forall is_str candidates <-> filtered flt candidates = Raise AttributeError).
Proof.
  intros flt l. split; [apply filtered_Ok_iff|]. split.
  - apply filtered_raises_without_strings.
  - intros H Hs. apply (filtered_Ok_iff flt) in Hs. destruct Hs as [kept Hk].
    congruence.
Qed.

Example filter_on_numeric_cell :
  filtered "" [SStr "main"; SInt 7%Z] = Raise AttributeError.
Proof. reflexivity. Qed.

Lemma dropna_cells (cells : list (option string)) :
  dropna (map cell_of cells) = map SStr (non_null cells).
Proof.
  induction cells as [|[s|] cells IH]; simpl; [reflexivity | | assumption].
  now rewrite <- IH.
Qed.

(** X3. NULL names never reach the filter: on a column of strings and
    NULLs, [dropna] followed by the filter returns the non-null names that
    contain the filter text, and does not raise. *)
Theorem null_names_are_dropped_before_filtering :
  forall (flt : string) (cells : list (option string)),
    filtered flt (dropna (map cell_of cells))
    = Ok (filter (fun c => PyStr.str_in (PyStr.lower flt) (PyStr.lower c))
            (non_null cells))
    /\ (In None cells -> filtered flt (map cell_of cells) = Raise AttributeError).
Proof.
  intros flt cells. split.
  - rewrite dropna_cells. apply filtered_strings.
  - intros Hin. apply filtered_raises_without_strings. intros Hall.
    rewrite Forall_forall in Hall.
    destruct (Hall SNull) as [s Hs]; [|discriminate Hs].
    change SNull with (cell_of None). now apply in_map.
Qed.

Lemma null_names_are_dropped_before_filtering_witness :
  filtered "" (map cell_of [Some "main"; None]) = Raise AttributeError.
Proof.
  refine (proj2 (null_names_are_dropped_before_filtering "" [Some "main"; None]) _).
  simpl. tauto.
Defined.

(* ------------------------------------------------------------------------- *)
(** ** The index handed to the table selector *)

Lemma index_of_first (x : string) (l : list string) (i : nat) :
  index_of x l = Some i ->
  i < List.length l /\ forall j, j < i -> nth_error l j <> Some x.
Proof.
  revert i; induction l as [|y l IH]; intros i; simpl.
  - discriminate.
  - destruct (String.eqb_spec y x) as [->|Hne].
    + intros [= <-]. split; [lia|]. intros j Hj. lia.
    + destruct (index_of x l) as [k|]; simpl; [|discriminate].
      intros [= <-]. destruct (IH k eq_refl) as [Hlt Hfirst].
      split; [lia|]. intros [|j] Hj; simpl.
      * congruence.
      * apply Hfirst. lia.
Qed.



(* ------------------------------------------------------------------------- *)
(** ** What a stage selects *)






(* ------------------------------------------------------------------------- *)
(** ** Passes that end early without a notice *)

Lemma render_pass_from_page_top (W : Warehouse) (u : ui) (cached : option Connection) :
  render_pass W u cached =
  bind (catalog_stage W u)
    (fun selected_catalog =>
       selected_schema <- schema_stage W u selected_catalog ;;
       selected_table <- table_stage W u selected_catalog selected_schema ;;
       match selected_catalog, selected_schema, selected_table with
       | Some catalog, Some schema, Some table =>
           if PyStr.truthy catalog && PyStr.truthy schema && PyStr.truthy table
           then analytics W (catalog ++ "." ++ schema ++ "." ++ table)
           else ret tt
       | _, _, _ => ret tt
       end) (page_top cached).
Proof. reflexivity. Qed.

(** X6. When [sql.connect] fails and no connection is cached, the pass ends
    with that exception at its first query: the page holds the title and the
    three column slots, and no statement was sent. *)
Theorem connection_failure_ends_pass_before_any_statement :
  forall (W : Warehouse) (u : ui) (e : exn),
    fresh_connection W = Raise e ->
    render_pass W u None =
    (Raised e,
     mkState None
       [PageConfig;
        Title "💳 Claims Enriched Table Explorer (Horizontal Filters + Analytics)";
        Columns 3;
        Connect (host (cfg W)) ("/sql/1.0/warehouses/" ++ warehouse_id (cfg W))]).
Proof.
  intros W u e H. rewrite render_pass_from_page_top.
  unfold bind at 1. unfold catalog_stage, bind at 1.
  unfold run_query, bind at 1. unfold get_connection, page_top.
  cbn [connection log]. unfold fresh_connection in H. rewrite H. reflexivity.
Qed.

Lemma connection_failure_ends_pass_before_any_statement_witness :
  render_pass unreachable fresh_ui None =
  (Raised ConnectionError,
   mkState None
     [PageConfig;
      Title "💳 Claims Enriched Table Explorer (Horizontal Filters + Analytics)";
      Columns 3;
      Connect "dbc.example.net" "/sql/1.0/warehouses/wh1"]).
Proof.
  apply (connection_failure_ends_pass_before_any_statement
           unreachable fresh_ui ConnectionError).
  reflexivity.
Defined.

(** X7. A selection that is the empty string counts as no selection: the
    stages below it and the analytics block are skipped, and the pass ends
    normally with the page as that stage left it, without any notice. *)
Theorem blank_selection_skips_the_rest :
  forall (W : Warehouse) (u : ui) (cached : option Connection),
    (forall s1,
        catalog_stage W u (page_top cached) = (Done (Some ""), s1) ->
        render_pass W u cached = (Done tt, s1))
    /\ (forall c s1 s2,
           catalog_stage W u (page_top cached) = (Done (Some c), s1) ->
           schema_stage W u (Some c) s1 = (Done (Some ""), s2) ->
           render_pass W u cached = (Done tt, s2))
    /\ (forall c sch s1 s2 s3,
           catalog_stage W u (page_top cached) = (Done (Some c), s1) ->
           schema_stage W u (Some c) s1 = (Done (Some sch), s2) ->
           table_stage W u (Some c) (Some sch) s2 = (Done (Some ""), s3) ->
           render_pass W u cached = (Done tt, s3)).
Proof.
  intros W u cached. split; [|split].
  - intros s1 H1. rewrite render_pass_from_page_top.
    unfold bind at 1. rewrite H1. reflexivity.
  - intros c s1 s2 H1 H2. rewrite render_pass_from_page_top.
    unfold bind at 1. rewrite H1. unfold bind at 1. rewrite H2.
    unfold bind, table_stage. destruct (PyStr.truthy c); reflexivity.
  - intros c sch s1 s2 s3 H1 H2 H3. rewrite render_pass_from_page_top.
    unfold bind at 1. rewrite H1. unfold bind at 1. rewrite H2.
    unfold bind at 1. rewrite H3.
    destruct (PyStr.truthy c), (PyStr.truthy sch); reflexivity.
Qed.

Lemma blank_selection_skips_the_rest_witness :
  render_pass blank_catalog fresh_ui None =
  (Done tt,
   mkState (Some (mkConnection "dbc.example.net" "/sql/1.0/warehouses/wh1"))
     [PageConfig;
      Title "💳 Claims Enriched Table Explorer (Horizontal Filters + Analytics)";
      Columns 3;
      Connect "dbc.example.net" "/sql/1.0/warehouses/wh1";
      Execute "SHOW CATALOGS";
      TextInput "🔎 Catalog filter" "catalog_filter";
      Selectbox "Catalog" [""] 0 "catalog_select"]).
Proof.
  apply (proj1 (blank_selection_skips_the_rest blank_catalog fresh_ui None)).
  vm_compute. reflexivity.
Defined.

(* ------------------------------------------------------------------------- *)
(** ** Chart panels and the columns they name *)

Lemma positions_notin (name : string) (cols : list string) :
  ~ In name cols -> positions name cols = [].
Proof. apply positions_from_notin. Qed.

Lemma positions_from_distinct (i : nat) (name : string) (cols : list string) :
  NoDup cols ->
  positions_from i name cols = [] \/ exists k, positions_from i name cols = [k].
Proof.
  revert i; induction cols as [|c cols IH]; intros i Hnd; simpl.
  - now left.
  - inversion Hnd as [|? ? Hout Hnd']; subst.
    destruct (String.eqb_spec c name) as [->|Hne].
    + right. exists i. now rewrite positions_from_notin.
    + now apply IH.
Qed.

Lemma In_remove_nth {A} (i : nat) (l : list A) (x : A) :
  In x (remove_nth i l) -> In x l.
Proof.
  revert i; induction l as [|y l IH]; intros i; [destruct i; simpl; tauto|].
  destruct i as [|i]; unfold remove_nth; fold (@remove_nth A); simpl.
  - tauto.
  - intros [->|H]; [now left | right; eapply IH; eassumption].
Qed.

Lemma select_missing_series (f : IndexedFrame) :
  ~ In "charges" (columns (body f)) \/ ~ In "denied_amt" (columns (body f)) ->
  select f ["charges"; "denied_amt"] = Raise KeyError.
Proof.
  intros H. unfold select, select_positions.
  destruct H as [H|H].
  - now rewrite (positions_notin _ _ H).
  - rewrite (positions_notin "denied_amt" _ H).
    destruct (positions "charges" (columns (body f))); reflexivity.
Qed.

Lemma trend_frame_missing_column (df : DataFrame) :
  ~ In "month" (columns df)
  \/ (NoDup (columns df)
      /\ (~ In "charges" (columns df) \/ ~ In "denied_amt" (columns df))) ->
  rbind (set_index df "month") (fun f => select f ["charges"; "denied_amt"])
  = Raise KeyError.
Proof.
  intros [Hm | [Hnd Hseries]]; unfold set_index.
  - now rewrite (positions_notin _ _ Hm).
  - destruct (positions_from_distinct 0 "month" (columns df) Hnd) as [E | [k E]];
      unfold positions; rewrite E; [reflexivity|].
    cbn [rbind]. apply select_missing_series. cbn [body columns].
    destruct Hseries as [H|H]; [left | right];
      intros Hin; apply H; eapply In_remove_nth; eassumption.
Qed.

(** X8. A chart panel reads its columns by name.  When a non-empty answer
    lacks the column that labels the rows ("month" for the trend,
    "provider_name" for the denial rates), or a trend answer with distinct
    labels lacks one of its two series, the panel raises [KeyError] after
    its heading is drawn, and no chart and no placeholder follows. *)
Theorem chart_panel_raises_without_its_columns :
  forall (W : Warehouse) (table_fqn : string) (s : state) (conn : Connection)
         (df : DataFrame),
    connection s = Some conn ->
    empty df = false ->
    (execute W conn (monthly_trend_q table_fqn) = Ok (Some df) ->
     ~ In "month" (columns df)
     \/ (NoDup (columns df)
         /\ (~ In "charges" (columns df) \/ ~ In "denied_amt" (columns df))) ->
     trend_panel W table_fqn s =
     (Raised KeyError,
      after s [Execute (monthly_trend_q table_fqn);
               Markdown "#### Monthly Charges & Denials"]))
    /\ (execute W conn (denial_by_provider_q table_fqn) = Ok (Some df) ->
        ~ In "provider_name" (columns df) ->
        denial_by_provider_panel W table_fqn s =
        (Raised KeyError,
         after s [Execute (denial_by_provider_q table_fqn);
                  Markdown "#### Providers with Highest Denial Rate"])).
Proof.
  intros W fqn s conn df Hc He. split.
  - intros Hx Hcols. unfold trend_panel, bind at 1.
    rewrite run_query_connected with (conn := conn) by assumption.
    rewrite Hx. generalize (monthly_trend_q fqn) as q. intros q.
    cbn [or_empty]. run. rewrite He. cbn [negb]. run.
    rewrite (trend_frame_missing_column df Hcols).
    unfold after. cbn [log connection]. repeat rewrite <- app_assoc. reflexivity.
  - intros Hx Hm. unfold denial_by_provider_panel, bind at 1.
    rewrite run_query_connected with (conn := conn) by assumption.
    rewrite Hx. generalize (denial_by_provider_q fqn) as q. intros q.
    cbn [or_empty]. run. rewrite He. cbn [negb]. run.
    unfold set_index. rewrite (positions_notin _ _ Hm). cbn [rbind].
    unfold after. cbn [log connection]. repeat rewrite <- app_assoc. reflexivity.
Qed.

Lemma chart_panel_raises_without_its_columns_witness :
  trend_panel trend_without_month demo_fqn
    (mkState (Some (mkConnection "dbc.example.net" "/sql/1.0/warehouses/wh1")) []) =
  (Raised KeyError,
   mkState (Some (mkConnection "dbc.example.net" "/sql/1.0/warehouses/wh1"))
     [Execute (monthly_trend_q demo_fqn);
      Markdown "#### Monthly Charges & Denials"]).
Proof.
  refine (proj1 (chart_panel_raises_without_its_columns trend_without_month demo_fqn
                   (mkState (Some (mkConnection "dbc.example.net"
                                     "/sql/1.0/warehouses/wh1")) [])
                   (mkConnection "dbc.example.net" "/sql/1.0/warehouses/wh1")
                   (mkFrame ["charges"; "denied_amt"]
                      [[SNum (100 # 1)%Q; SNum (10 # 1)%Q]])
                   _ _) _ _).
  - reflexivity.
  - reflexivity.
  - vm_compute. reflexivity.
  - left. simpl. intuition discriminate.
Defined.

(* ------------------------------------------------------------------------- *)
(** ** Connections opened by a pass *)

Lemma connects_app (l l' : list event) :
  connects (l ++ l') = connects l + connects l'.
Proof.
  induction l as [|e l IH]; simpl; [reflexivity|].
  destruct e; simpl; now rewrite IH.
Qed.

Lemma connects_within_ret {A} (a : A) : connects_within (ret a).
Proof. intros s. simpl. lia. Qed.

Lemma connects_within_stop {A} : connects_within (@st_stop A).
Proof. intros s. simpl. lia. Qed.

Lemma connects_within_lift {A} (r : result A) : connects_within (lift r).
Proof. intros s. unfold lift. destruct r; simpl; lia. Qed.

Lemma connects_within_emit (e : event) :
  connects [e] = 0 -> connects_within (emit e).
Proof. intros He s. unfold emit. simpl. rewrite connects_app, He. lia. Qed.

Lemma connects_within_get_connection (W : Warehouse) :
  connects_within (get_connection W).
Proof.
  intros [c l]. unfold get_connection. simpl.
  destruct c as [conn|]; simpl; [lia|].
  destruct (sql_connect W _ _); simpl; rewrite connects_app; simpl; lia.
Qed.

Lemma connects_within_bind {A B} (m : M A) (k : A -> M B) :
  connects_within m -> (forall a, connects_within (k a)) ->
  connects_within (bind m k).
Proof.
  intros Hm Hk s. unfold bind. specialize (Hm s).
  destruct (m s) as [[a| |e] t]; simpl in *.
  - specialize (Hk a t). lia.
  - lia.
  - lia.
Qed.

Lemma connects_within_halt_when (b : bool) (n : event) :
  connects [n] = 0 -> connects_within (halt_when b n).
Proof.
  intros Hn. unfold halt_when. destruct b.
  - apply connects_within_bind;
      [now apply connects_within_emit | intros _; apply connects_within_stop].
  - apply connects_within_ret.
Qed.

Ltac within :=
  repeat first
    [ apply connects_within_ret
    | apply connects_within_stop
    | apply connects_within_halt_when; reflexivity
    | apply connects_within_emit; reflexivity
    | apply connects_within_lift
    | apply connects_within_get_connection
    | apply connects_within_bind; [|intros ?]
    | match goal with
      | |- connects_within (if ?b then _ else _) => destruct b
      | |- connects_within (match ?x with _ => _ end) => destruct x
      end ].

Lemma connects_within_script (W : Warehouse) (u : ui) :
  connects_within (script W u).
Proof.
  unfold script, catalog_stage, schema_stage, table_stage, analytics,
    preview_panel, kpi_panel, status_panel, trend_panel, denial_reason_panel,
    denial_by_provider_panel, diag_panel, prov_panel, outlier_panel,
    run_query, st_text_input, st_selectbox.
  within.
Qed.

(** X9. A pass calls [sql.connect] at most once, and not at all when a
    connection is cached; however many statements it sends, they share that
    one connection. *)
Theorem pass_connects_at_most_once :
  forall (W : Warehouse) (u : ui) (cached : option Connection),
    connects (log (snd (render_pass W u cached))) <= 1
    /\ (cached <> None -> connects (log (snd (render_pass W u cached))) = 0).
Proof.
  intros W u cached.
  pose proof (connects_within_script W u (mkState cached [])) as H.
  unfold render_pass. simpl in H.
  destruct cached as [conn|]; simpl in H.
  - split; [lia | intros _; lia].
  - split; [lia | intros Hn; now contradiction Hn].
Qed.

Example populated_pass_connects_once :
  connects (log (snd (render_pass populated fresh_ui None))) = 1
  /\ List.length (queries (log (snd (render_pass populated fresh_ui None)))) = 12.
Proof. split; vm_compute; reflexivity. Qed.

(* ------------------------------------------------------------------------- *)
(** ** The statements a block sends *)

Lemma initial_segment_refl {A} (l : list A) : initial_segment l l.
Proof. exists []. now rewrite app_nil_r. Qed.

Lemma initial_segment_nil {A} (l : list A) : initial_segment [] l.
Proof. now exists l. Qed.

Lemma initial_segment_app {A} (p l l' : list A) :
  initial_segment p l -> initial_segment p (l ++ l').
Proof. intros [rest ->]. exists (rest ++ l')%list. now rewrite app_assoc. Qed.

Lemma initial_segment_extend {A} (l p l' : list A) :
  initial_segment p l' -> initial_segment (l ++ p) (l ++ l').
Proof. intros [rest ->]. exists rest. now rewrite app_assoc. Qed.

Lemma sends_nothing {A} (m : M A) :
  (forall s, queries (log (snd (m s))) = queries (log s)) -> sends [] m.
Proof.
  intros H s. exists []. rewrite app_nil_r.
  split; [apply H | split; [apply initial_segment_nil | reflexivity]].
Qed.

Lemma sends_ret {A} (a : A) : sends [] (ret a).
Proof. apply sends_nothing. reflexivity. Qed.

Lemma sends_stop {A} : sends [] (@st_stop A).
Proof. apply sends_nothing. reflexivity. Qed.

Lemma sends_lift {A} (r : result A) : sends [] (lift r).
Proof. apply sends_nothing. intros s. unfold lift. now destruct r. Qed.

Lemma sends_emit (e : event) : queries [e] = [] -> sends [] (emit e).
Proof.
  intros He. apply sends_nothing. intros s. unfold emit. simpl.
  rewrite queries_app, He. apply app_nil_r.
Qed.

Lemma sends_get_connection (W : Warehouse) : sends [] (get_connection W).
Proof.
  apply sends_nothing. intros [c l]. unfold get_connection. simpl.
  destruct c as [conn|]; simpl; [reflexivity|].
  destruct (sql_connect W _ _); simpl; rewrite queries_app; apply app_nil_r.
Qed.

Lemma sends_bind {A B} (qs1 qs2 : list string) (m : M A) (k : A -> M B) :
  sends qs1 m -> (forall a, sends qs2 (k a)) -> sends (qs1 ++ qs2) (bind m k).
Proof.
  intros Hm Hk s. unfold bind.
  destruct (Hm s) as [sent1 [Hq1 [Hseg1 Hall1]]].
  destruct (m s) as [[a| |e] t]; simpl in *.
  - destruct (Hk a t) as [sent2 [Hq2 [Hseg2 Hall2]]].
    rewrite (Hall1 a eq_refl) in Hq1.
    exists (qs1 ++ sent2)%list. split; [|split].
    + rewrite Hq2, Hq1. now rewrite app_assoc.
    + now apply initial_segment_extend.
    + intros b Hb. now rewrite (Hall2 b Hb).
  - exists sent1. split; [assumption|].
    split; [now apply initial_segment_app | discriminate].
  - exists sent1. split; [assumption|].
    split; [now apply initial_segment_app | discriminate].
Qed.

Lemma sends_bind_nil {A B} (qs : list string) (m : M A) (k : A -> M B) :
  sends [] m -> (forall a, sends qs (k a)) -> sends qs (bind m k).
Proof. intros Hm Hk. now apply (sends_bind [] qs). Qed.

Lemma sends_bind_cons {A B} (q : string) (qs : list string) (m : M A) (k : A -> M B) :
  sends [q] m -> (forall a, sends qs (k a)) -> sends (q :: qs) (bind m k).
Proof. intros Hm Hk. now apply (sends_bind [q] qs). Qed.

Lemma sends_bind_last {A B} (q : string) (m : M A) (k : A -> M B) :
  sends [q] m -> (forall a, sends [] (k a)) -> sends [q] (bind m k).
Proof. intros Hm Hk. now apply (sends_bind [q] []). Qed.

Lemma sends_halt_when (b : bool) (n : event) :
  queries [n] = [] -> sends [] (halt_when b n).
Proof.
  intros Hn. unfold halt_when. destruct b.
  - apply sends_bind_nil; [now apply sends_emit | intros _; apply sends_stop].
  - apply sends_ret.
Qed.

Ltac quiet :=
  repeat first
    [ apply sends_ret
    | apply sends_stop
    | apply sends_halt_when; reflexivity
    | apply sends_emit; reflexivity
    | apply sends_lift
    | apply sends_get_connection
    | apply sends_bind_nil; [|intros ?]
    | match goal with
      | |- sends [] (if ?b then _ else _) => destruct b
      | |- sends [] (match ?x with _ => _ end) => destruct x
      end ].

Lemma sends_run_query (W : Warehouse) (q : string) : sends [q] (run_query W q).
Proof.
  unfold run_query.
  apply sends_bind_nil; [apply sends_get_connection | intros conn].
  apply sends_bind_last; [|intros ?; quiet].
  intros s. exists [q]. unfold emit. simpl. rewrite queries_app.
  split; [reflexivity | split; [apply initial_segment_refl | reflexivity]].
Qed.

(** A block that draws, sends [q], and draws. *)
Ltac one_statement W :=
  repeat first
    [ apply sends_bind_last; [apply (sends_run_query W) | intros ?; quiet]
    | apply sends_bind_nil; [solve [quiet] | intros ?] ].

Lemma sends_preview_panel (W : Warehouse) (fqn : string) :
  sends [preview_q fqn] (preview_panel W fqn).
Proof. unfold preview_panel. one_statement W. Qed.

Lemma sends_kpi_panel (W : Warehouse) (fqn : string) :
  sends [kpi_query fqn] (kpi_panel W fqn).
Proof. unfold kpi_panel. one_statement W. Qed.

Lemma sends_status_panel (W : Warehouse) (fqn : string) :
  sends [status_q fqn] (status_panel W fqn).
Proof. unfold status_panel. one_statement W. Qed.

Lemma sends_trend_panel (W : Warehouse) (fqn : string) :
  sends [monthly_trend_q fqn] (trend_panel W fqn).
Proof. unfold trend_panel. one_statement W. Qed.

Lemma sends_denial_reason_panel (W : Warehouse) (fqn : string) :
  sends [denial_reason_q fqn] (denial_reason_panel W fqn).
Proof. unfold denial_reason_panel. one_statement W. Qed.

Lemma sends_denial_by_provider_panel (W : Warehouse) (fqn : string) :
  sends [denial_by_provider_q fqn] (denial_by_provider_panel W fqn).
Proof. unfold denial_by_provider_panel. one_statement W. Qed.

Lemma sends_diag_panel (W : Warehouse) (fqn : string) :
  sends [diag_q fqn] (diag_panel W fqn).
Proof. unfold diag_panel. one_statement W. Qed.

Lemma sends_prov_panel (W : Warehouse) (fqn : string) :
  sends [prov_q fqn] (prov_panel W fqn).
Proof. unfold prov_panel. one_statement W. Qed.

Lemma sends_outlier_panel (W : Warehouse) (fqn : string) :
  sends [outlier_q fqn] (outlier_panel W fqn).
Proof. unfold outlier_panel. one_statement W. Qed.

Lemma sends_analytics (W : Warehouse) (fqn : string) :
  sends (analytics_statements fqn) (analytics W fqn).
Proof.
  unfold analytics, analytics_statements.
  apply sends_bind_nil; [quiet | intros _].
  apply sends_bind_cons; [apply sends_preview_panel | intros _].
  apply sends_bind_cons; [apply sends_kpi_panel | intros _].
  apply sends_bind_cons; [apply sends_status_panel | intros _].
  apply sends_bind_cons; [apply sends_trend_panel | intros _].
  apply sends_bind_cons; [apply sends_denial_reason_panel | intros _].
  apply sends_bind_cons; [apply sends_denial_by_provider_panel | intros _].
  apply sends_bind_cons; [apply sends_diag_panel | intros _].
  apply sends_bind_cons; [apply sends_prov_panel | intros _].
  apply sends_outlier_panel.
Qed.

Lemma never_stops_ret {A} (a : A) : never_stops (ret a).
Proof. intros s. discriminate. Qed.

Lemma never_stops_emit (e : event) : never_stops (emit e).
Proof. intros s. discriminate. Qed.

Lemma never_stops_lift {A} (r : result A) : never_stops (lift r).
Proof. intros s. unfold lift. destruct r; discriminate. Qed.

Lemma never_stops_get_connection (W : Warehouse) : never_stops (get_connection W).
Proof.
  intros s. unfold get_connection.
  destruct (connection s); [discriminate|].
  destruct (sql_connect W _ _); discriminate.
Qed.

Lemma never_stops_bind {A B} (m : M A) (k : A -> M B) :
  never_stops m -> (forall a, never_stops (k a)) -> never_stops (bind m k).
Proof.
  intros Hm Hk s. unfold bind. specialize (Hm s).
  destruct (m s) as [[a| |e] t]; simpl in *.
  - apply Hk.
  - contradiction.
  - discriminate.
Qed.

Ltac going :=
  repeat first
    [ apply never_stops_ret
    | apply never_stops_emit
    | apply never_stops_lift
    | apply never_stops_get_connection
    | apply never_stops_bind; [|intros ?]
    | match goal with
      | |- never_stops (if ?b then _ else _) => destruct b
      | |- never_stops (match ?x with _ => _ end) => destruct x
      end ].

Lemma never_stops_analytics (W : Warehouse) (fqn : string) :
  never_stops (analytics W fqn).
Proof.
  unfold analytics, preview_panel, kpi_panel, status_panel, trend_panel,
    denial_reason_panel, denial_by_provider_panel, diag_panel, prov_panel,
    outlier_panel, run_query.
  going.
Qed.

(** X10. The analytics block never calls [st.stop()].  It sends its nine
    statements in the order preview, KPI, status, trend, denial reasons,
    denial rate by provider, diagnoses, providers, outliers: whatever
    happens, the statements sent are an initial segment of that list, and
    all nine when the block returns. *)
Theorem analytics_sends_nine_statements_in_order :
  forall (W : Warehouse) (table_fqn : string) (s : state),
    fst (analytics W table_fqn s) <> Stopped
    /\ exists sent,
        queries (log (snd (analytics W table_fqn s))) = (queries (log s) ++ sent)%list
        /\ initial_segment sent (analytics_statements table_fqn)
        /\ (fst (analytics W table_fqn s) = Done tt ->
            sent = analytics_statements table_fqn).
Proof.
  intros W fqn s. split; [apply never_stops_analytics|].
  destruct (sends_analytics W fqn s) as [sent [Hq [Hseg Hall]]].
  exists sent. split; [assumption | split; [assumption|]]. apply Hall.
Qed.

(* ------------------------------------------------------------------------- *)
(** ** Only read statements *)

Lemma only_reads_unchanged {A} (m : M A) :
  (forall s, queries (log (snd (m s))) = queries (log s)) -> only_reads m.
Proof. intros H s Hs. now rewrite H. Qed.

Lemma only_reads_ret {A} (a : A) : only_reads (ret a).
Proof. apply only_reads_unchanged. reflexivity. Qed.

Lemma only_reads_stop {A} : only_reads (@st_stop A).
Proof. apply only_reads_unchanged. reflexivity. Qed.

Lemma only_reads_lift {A} (r : result A) : only_reads (lift r).
Proof. apply only_reads_unchanged. intros s. unfold lift. now destruct r. Qed.

Lemma only_reads_emit (e : event) : queries [e] = [] -> only_reads (emit e).
Proof.
  intros He. apply only_reads_unchanged. intros s. unfold emit. simpl.
  rewrite queries_app, He. apply app_nil_r.
Qed.

Lemma only_reads_get_connection (W : Warehouse) : only_reads (get_connection W).
Proof.
  apply only_reads_unchanged. intros [c l]. unfold get_connection. simpl.
  destruct c as [conn|]; simpl; [reflexivity|].
  destruct (sql_connect W _ _); simpl; rewrite queries_app; apply app_nil_r.
Qed.

Lemma only_reads_bind {A B} (m : M A) (k : A -> M B) :
  only_reads m -> (forall a, only_reads (k a)) -> only_reads (bind m k).
Proof.
  intros Hm Hk s Hs. unfold bind. specialize (Hm s Hs).
  destruct (m s) as [[a| |e] t]; simpl in *.
  - now apply Hk.
  - assumption.
  - assumption.
Qed.

Lemma only_reads_halt_when (b : bool) (n : event) :
  queries [n] = [] -> only_reads (halt_when b n).
Proof.
  intros Hn. unfold halt_when. destruct b.
  - apply only_reads_bind; [now apply only_reads_emit | intros _; apply only_reads_stop].
  - apply only_reads_ret.
Qed.

Lemma only_reads_execute (q : string) :
  is_read_statement q = true -> only_reads (emit (Execute q)).
Proof.
  intros Hq s Hs. unfold emit. simpl. rewrite queries_app.
  apply Forall_app. split; [assumption|]. simpl. now constructor.
Qed.

Ltac reads :=
  repeat first
    [ apply only_reads_ret
    | apply only_reads_stop
    | apply only_reads_halt_when; reflexivity
    | apply only_reads_emit; reflexivity
    | apply only_reads_execute; reflexivity
    | apply only_reads_lift
    | apply only_reads_get_connection
    | apply only_reads_bind; [|intros ?]
    | match goal with
      | |- only_reads (if ?b then _ else _) => destruct b
      | |- only_reads (match ?x with _ => _ end) => destruct x
      end ].

Lemma only_reads_script (W : Warehouse) (u : ui) : only_reads (script W u).
Proof.
  unfold script, catalog_stage, schema_stage, table_stage, analytics,
    preview_panel, kpi_panel, status_panel, trend_panel, denial_reason_panel,
    denial_by_provider_panel, diag_panel, prov_panel, outlier_panel,
    run_query, st_text_input, st_selectbox.
  reads.
Qed.

(** X11. Every statement a pass sends starts, after leading blanks, with
    SHOW or SELECT, whatever the catalog, schema and table names are: the
    script itself never opens a statement with a writing keyword. *)
Theorem pass_sends_only_show_and_select :
  forall (W : Warehouse) (u : ui) (cached : option Connection),
    Forall (fun q => is_read_statement q = true)
      (queries (log (snd (render_pass W u cached)))).
Proof.
  intros W u cached. unfold render_pass.
  apply only_reads_script. simpl. constructor.
Qed.

(* ------------------------------------------------------------------------- *)
(** ** The statements of a whole pass *)

Lemma sends_catalog_stage (W : Warehouse) (u : ui) :
  sends ["SHOW CATALOGS"] (catalog_stage W u).
Proof. unfold catalog_stage, st_text_input, st_selectbox. one_statement W. Qed.

Lemma sends_schema_stage (W : Warehouse) (u : ui) (c : string) :
  PyStr.truthy c = true ->
  sends ["SHOW SCHEMAS IN " ++ c] (schema_stage W u (Some c)).
Proof.
  intros Tc. unfold schema_stage, st_text_input, st_selectbox. rewrite Tc.
  one_statement W.
Qed.

Lemma sends_table_stage (W : Warehouse) (u : ui) (c sch : string) :
  PyStr.truthy c = true -> PyStr.truthy sch = true ->
  sends ["SHOW TABLES IN " ++ c ++ "." ++ sch] (table_stage W u (Some c) (Some sch)).
Proof.
  intros Tc Ts. unfold table_stage, st_text_input, st_selectbox. rewrite Tc, Ts.
  cbn [andb]. one_statement W.
Qed.

(** The three levels of the script below the catalog stage, each from the
    state [s] its upper level left, with [q] the statements sent so far. *)
Lemma below_table_stage (W : Warehouse) (c sch : string) (st : option string)
    (s : state) (sent : list string) :
  queries (log s) = sent ->
  exists t sent',
    queries (log (snd
      (match st with
       | Some table =>
           if PyStr.truthy c && PyStr.truthy sch && PyStr.truthy table
           then analytics W (c ++ "." ++ sch ++ "." ++ table)
           else ret tt
       | None => ret tt
       end s))) = (sent ++ sent')%list
    /\ initial_segment sent' (analytics_statements (c ++ "." ++ sch ++ "." ++ t)).
Proof.
  intros Hs. destruct st as [t|].
  - destruct (PyStr.truthy c && PyStr.truthy sch && PyStr.truthy t)%bool.
    + destruct (sends_analytics W (c ++ "." ++ sch ++ "." ++ t) s)
        as [sent' [Hq [Hseg _]]].
      exists t, sent'. rewrite Hq, Hs. split; [reflexivity | assumption].
    + exists t, []. simpl. rewrite Hs, app_nil_r.
      split; [reflexivity | apply initial_segment_nil].
  - exists "", []. simpl. rewrite Hs, app_nil_r.
    split; [reflexivity | apply initial_segment_nil].
Qed.

Lemma below_schema_stage (W : Warehouse) (u : ui) (c : string)
    (ss : option string) (s : state) (sent : list string) :
  PyStr.truthy c = true ->
  queries (log s) = sent ->
  exists sch t sent',
    queries (log (snd
      (bind (table_stage W u (Some c) ss)
         (fun st =>
            match ss with
            | Some schema =>
                match st with
                | Some table =>
                    if PyStr.truthy c && PyStr.truthy schema && PyStr.truthy table
                    then analytics W (c ++ "." ++ schema ++ "." ++ table)
                    else ret tt
                | None => ret tt
                end
            | None => ret tt
            end) s))) = (sent ++ sent')%list
    /\ initial_segment sent'
         (("SHOW TABLES IN " ++ c ++ "." ++ sch)
            :: analytics_statements (c ++ "." ++ sch ++ "." ++ t)).
Proof.
  intros Tc Hs. destruct ss as [sch|].
  - destruct (PyStr.truthy sch) eqn:Ts.
    + unfold bind.
      destruct (sends_table_stage W u c sch Tc Ts s) as [sent3 [Hq3 [Hseg3 Hall3]]].
      destruct (table_stage W u (Some c) (Some sch) s) as [[st| |e] s3];
        cbn [fst snd] in *.
      * rewrite (Hall3 st eq_refl), Hs in Hq3.
        destruct (below_table_stage W c sch st s3 _ Hq3) as [t [sent' [Hq Hseg]]].
        exists sch, t, (("SHOW TABLES IN " ++ c ++ "." ++ sch) :: sent').
        rewrite Ts in Hq.
        split; [etransitivity; [exact Hq | now rewrite <- app_assoc]|].
        now apply (initial_segment_extend ["SHOW TABLES IN " ++ c ++ "." ++ sch]).
      * exists sch, "", sent3. split; [cbv beta iota; cbn [snd]; now rewrite Hq3, Hs|].
        now apply (initial_segment_app sent3 ["SHOW TABLES IN " ++ c ++ "." ++ sch]).
      * exists sch, "", sent3. split; [cbv beta iota; cbn [snd]; now rewrite Hq3, Hs|].
        now apply (initial_segment_app sent3 ["SHOW TABLES IN " ++ c ++ "." ++ sch]).
    + exists sch, "", []. unfold bind, table_stage. rewrite Tc, Ts. cbn.
      rewrite Hs, app_nil_r. split; [reflexivity | apply initial_segment_nil].
  - exists "", "", []. unfold bind, table_stage. cbn.
    rewrite Hs, app_nil_r. split; [reflexivity | apply initial_segment_nil].
Qed.

Lemma below_catalog_stage (W : Warehouse) (u : ui) (sc : option string)
    (s : state) (sent : list string) :
  queries (log s) = sent ->
  exists c sch t sent',
    queries (log (snd
      (bind (schema_stage W u sc)
         (fun ss =>
            bind (table_stage W u sc ss)
              (fun st =>
                 match sc with
                 | Some catalog =>
                     match ss with
                     | Some schema =>
                         match st with
                         | Some table =>
                             if PyStr.truthy catalog && PyStr.truthy schema
                                && PyStr.truthy table
                             then analytics W
                                    (catalog ++ "." ++ schema ++ "." ++ table)
                             else ret tt
                         | None => ret tt
                         end
                     | None => ret tt
                     end
                 | None => ret tt
                 end)) s))) = (sent ++ sent')%list
    /\ initial_segment sent'
         (("SHOW SCHEMAS IN " ++ c)
            :: ("SHOW TABLES IN " ++ c ++ "." ++ sch)
            :: analytics_statements (c ++ "." ++ sch ++ "." ++ t)).
Proof.
  intros Hs. destruct sc as [c|].
  - destruct (PyStr.truthy c) eqn:Tc.
    + unfold bind at 1.
      destruct (sends_schema_stage W u c Tc s) as [sent2 [Hq2 [Hseg2 Hall2]]].
      destruct (schema_stage W u (Some c) s) as [[ss| |e] s2]; cbn [fst snd] in *.
      * rewrite (Hall2 ss eq_refl), Hs in Hq2.
        destruct (below_schema_stage W u c ss s2 _ Tc Hq2)
          as [sch [t [sent' [Hq Hseg]]]].
        exists c, sch, t, (("SHOW SCHEMAS IN " ++ c) :: sent').
        rewrite Tc in Hq.
        split; [etransitivity; [exact Hq | now rewrite <- app_assoc]|].
        now apply (initial_segment_extend ["SHOW SCHEMAS IN " ++ c]).
      * exists c, "", "", sent2. split; [cbv beta iota; cbn [snd]; now rewrite Hq2, Hs|].
        now apply (initial_segment_app sent2 ["SHOW SCHEMAS IN " ++ c]).
      * exists c, "", "", sent2. split; [cbv beta iota; cbn [snd]; now rewrite Hq2, Hs|].
        now apply (initial_segment_app sent2 ["SHOW SCHEMAS IN " ++ c]).
    + exists c, "", "", []. unfold bind, schema_stage, table_stage. rewrite Tc. cbn.
      rewrite Hs, app_nil_r. split; [reflexivity | apply initial_segment_nil].
  - exists "", "", "", []. unfold bind, schema_stage, table_stage. cbn.
    rewrite Hs, app_nil_r. split; [reflexivity | apply initial_segment_nil].
Qed.

(** X12. The statements of a pass follow one fixed sequence: SHOW CATALOGS,
    SHOW SCHEMAS IN the selected catalog, SHOW TABLES IN that catalog and
    the selected schema, then the nine analytics statements over catalog,
    schema and table joined by dots.  Whatever the warehouse answers and
    however the pass ends, what was sent is an initial segment of that
    sequence for some catalog, schema and table. *)
Theorem pass_statements_follow_the_cascade :
  forall (W : Warehouse) (u : ui) (cached : option Connection),
    exists c sch t,
      initial_segment (queries (log (snd (render_pass W u cached))))
        (pass_statements c sch t).
Proof.
  intros W u cached. rewrite render_pass_from_page_top. unfold bind at 1.
  destruct (sends_catalog_stage W u (page_top cached)) as [sent1 [Hq1 [Hseg1 Hall1]]].
  destruct (catalog_stage W u (page_top cached)) as [[sc| |e] s1];
    cbn [fst snd] in *.
  - rewrite (Hall1 sc eq_refl) in Hq1. cbn in Hq1.
    destruct (below_catalog_stage W u sc s1 _ Hq1) as [c [sch [t [sent' [Hq Hseg]]]]].
    exists c, sch, t. rewrite Hq.
    now apply (initial_segment_extend ["SHOW CATALOGS"]).
  - exists "", "", "". rewrite Hq1. cbn [page_top log queries app].
    now apply (initial_segment_app sent1 ["SHOW CATALOGS"]).
  - exists "", "", "". rewrite Hq1. cbn [page_top log queries app].
    now apply (initial_segment_app sent1 ["SHOW CATALOGS"]).
Qed.

Example populated_pass_statements :
  queries (log (snd (render_pass populated fresh_ui None)))
  = pass_statements "main" "payer" "claims_enriched".
Proof. vm_compute. reflexivity. Qed.

(* ------------------------------------------------------------------------- *)
(** ** Selectors are drawn with options *)

Lemma draws_in_range_unchanged {A} (m : M A) :
  (forall s, log (snd (m s)) = log s) -> draws_in_range m.
Proof. intros H s Hs. now rewrite H. Qed.

Lemma draws_in_range_ret {A} (a : A) : draws_in_range (ret a).
Proof. apply draws_in_range_unchanged. reflexivity. Qed.

Lemma draws_in_range_stop {A} : draws_in_range (@st_stop A).
Proof. apply draws_in_range_unchanged. reflexivity. Qed.

Lemma draws_in_range_lift {A} (r : result A) : draws_in_range (lift r).
Proof. apply draws_in_range_unchanged. intros s. unfold lift. now destruct r. Qed.

Lemma draws_in_range_emit (e : event) : in_range e -> draws_in_range (emit e).
Proof.
  intros He s Hs. unfold emit. simpl.
  apply Forall_app. split; [assumption | now constructor].
Qed.

Lemma draws_in_range_get_connection (W : Warehouse) :
  draws_in_range (get_connection W).
Proof.
  intros [c l] Hs. unfold get_connection. simpl in *.
  destruct c as [conn|]; simpl; [assumption|].
  destruct (sql_connect W _ _); simpl;
    (apply Forall_app; split; [assumption | now repeat constructor]).
Qed.

Lemma draws_in_range_bind {A B} (m : M A) (k : A -> M B) :
  draws_in_range m -> (forall a, draws_in_range (k a)) -> draws_in_range (bind m k).
Proof.
  intros Hm Hk s Hs. unfold bind. specialize (Hm s Hs).
  destruct (m s) as [[a| |e] t]; simpl in *.
  - now apply Hk.
  - assumption.
  - assumption.
Qed.

(** What follows [halt_when b n] runs only when [b] is false. *)
Lemma draws_in_range_after_halt {B} (b : bool) (n : event) (k : M B) :
  in_range n -> (b = false -> draws_in_range k) ->
  draws_in_range (bind (halt_when b n) (fun _ => k)).
Proof.
  intros Hn Hk s Hs. unfold bind, halt_when. destruct b; simpl.
  - apply Forall_app. split; [assumption | now constructor].
  - now apply Hk.
Qed.

Lemma draws_in_range_selectbox (u : ui) (label : string) (options : list string)
    (idx : nat) (key : string) :
  idx < List.length options ->
  draws_in_range (st_selectbox u label options idx key).
Proof.
  intros Hidx. unfold st_selectbox.
  apply draws_in_range_bind; [now apply draws_in_range_emit | intros _].
  apply draws_in_range_ret.
Qed.

Lemma first_option_exists {A} (l : list A) : is_nil l = false -> 0 < List.length l.
Proof. destruct l; [discriminate | simpl; lia]. Qed.

Lemma default_idx_lt (l : list string) :
  is_nil l = false -> default_idx l < List.length l.
Proof.
  intros Hl. unfold default_idx.
  destruct (index_of "claims_enriched" l) as [i|] eqn:E.
  - now apply index_of_first in E.
  - now apply first_option_exists.
Qed.

Ltac ranged :=
  repeat first
    [ apply draws_in_range_ret
    | apply draws_in_range_stop
    | apply draws_in_range_selectbox;
        first [now apply first_option_exists | now apply default_idx_lt]
    | apply draws_in_range_after_halt; [exact I | intros ?]
    | apply draws_in_range_emit; exact I
    | apply draws_in_range_lift
    | apply draws_in_range_get_connection
    | apply draws_in_range_bind; [|intros ?]
    | match goal with
      | |- draws_in_range (if ?b then _ else _) => destruct b
      | |- draws_in_range (match ?x with _ => _ end) => destruct x
      end ].

Lemma draws_in_range_script (W : Warehouse) (u : ui) :
  draws_in_range (script W u).
Proof.
  unfold script, catalog_stage, schema_stage, table_stage, analytics,
    preview_panel, kpi_panel, status_panel, trend_panel, denial_reason_panel,
    denial_by_provider_panel, diag_panel, prov_panel, outlier_panel,
    run_query, st_text_input.
  ranged.
Qed.

(** X13. A selector is only ever drawn with at least one option, and the
    index it is given points into its options: the stages stop before the
    selector when nothing is left to offer, and the default index of the
    table selector is a position of the filtered list. *)
Theorem selectors_are_drawn_in_range :
  forall (W : Warehouse) (u : ui) (cached : option Connection),
    Forall in_range (log (snd (render_pass W u cached))).
Proof.
  intros W u cached. unfold render_pass.
  apply draws_in_range_script. simpl. constructor.
Qed.

(* ========================================================================= *)
(** * Two passes over the same content *)

(* ------------------------------------------------------------------------- *)
(** ** Runs that do the same *)








(* ------------------------------------------------------------------------- *)
(** ** What the listings fix, and what they do not *)






(** No statement text occurs twice among the statements of a pass: the
    twelve texts differ before the first name is spliced in. *)
Lemma pass_statements_distinct (c sch t : string) :
  NoDup (pass_statements c sch t).
Proof.
  unfold pass_statements, analytics_statements, preview_q, kpi_query, status_q,
    monthly_trend_q, denial_reason_q, denial_by_provider_q, diag_q, prov_q,
    outlier_q.
  generalize (c ++ "." ++ sch ++ "." ++ t) as fqn.
  generalize (c ++ "." ++ sch) as cs.
  intros cs fqn. cbn [app String.append].
  repeat (constructor;
          [cbn [In]; intros H;
           repeat (destruct H as [H|H]; [discriminate H|]); exact H|]).
  constructor.
Qed.
